(** * Gradebook: a shallow embedding of [project1.py]

    The development follows the source file top to bottom: Python's
    built-in strings, insertion-ordered dictionaries, binary64 floats
    and stable sort first, then class [Student], then class
    [Gradebook] with its statistics and its two codecs, and finally the
    properties of the record store.

    Conventions of the embedding.
    - A [str] is a [string]; its characters are the code points below
      256.
    - A [dict] is an association list in insertion order, as Python
      iterates it: order decides ties in [top_n_students], the order
      of float additions and the order of search results.
    - A mark is a binary64 float ([Dict[str, float]] in the source).
    - Sorting is a stable insertion sort. It gives the list CPython's
      sort gives whenever [<] orders the keys, which it does for rolls,
      for subjects and for scores that are numbers. It does not follow
      CPython on scores that are NaN, so the order of the ranking is
      stated for marks in range only.
    - A method that mutates [self] returns the new object together with
      its outcome; an exception is an outcome [Raise e], and the object
      returned with it is the state the exception left behind.
    - Objects are values: a record handed to a gradebook, or a marks
      dictionary handed to a record, is not followed when the caller
      goes on changing it through a reference of its own. Changes to
      a record a gradebook holds are changes to the gradebook's entry.
    - File access is left out: [save_to_json] returns the payload handed
      to [json.dump], [load_from_json] takes the value [json.load]
      returns, [export_to_csv] returns the rows handed to [csv.writer].
      The [print] calls of the class are left out as well; the helper
      functions for the CLI are modelled with what they read from and
      write to the console. *)

From Stdlib Require Import List String Ascii ZArith NArith Bool Lia.
From Stdlib Require Import Floats DecimalString.
From Stdlib Require Import Permutation Sorted.
Import ListNotations.

Local Open Scope Z_scope.
Local Open Scope list_scope.
Local Open Scope string_scope.

(* ================================================================= *)
(** ** Python strings *)

Module PyStr.

(** [str.isspace] on one character below 256: TAB..CR, FS..US, SPACE,
    NEL and NBSP. *)
Definition isspace (c : ascii) : bool :=
  let n := N_of_ascii c in
  ((9 <=? n) && (n <=? 13) || (28 <=? n) && (n <=? 32)
   || (n =? 133) || (n =? 160))%N.

Fixpoint lstrip (s : string) : string :=
  match s with
  | EmptyString => EmptyString
  | String c s' => if isspace c then lstrip s' else s
  end.

(** [rstrip] drops the trailing run of whitespace: a whitespace
    character stays exactly when something that is not whitespace
    follows it. *)
Fixpoint rstrip (s : string) : string :=
  match s with
  | EmptyString => EmptyString
  | String c s' =>
      match rstrip s' with
      | EmptyString => if isspace c then EmptyString else String c EmptyString
      | r => String c r
      end
  end.

(** [s.strip()] *)
Definition strip (s : string) : string := rstrip (lstrip s).

(** [str.lower] on one character below 256: A..Z and the Latin-1
    capitals (all of 192..222 but the multiplication sign 215). *)
Definition lower_char (c : ascii) : ascii :=
  let n := N_of_ascii c in
  if ((65 <=? n) && (n <=? 90)
      || (192 <=? n) && (n <=? 222) && negb (n =? 215))%N
  then ascii_of_N (n + 32) else c.

(** [s.lower()] *)
Fixpoint lower (s : string) : string :=
  match s with
  | EmptyString => EmptyString
  | String c s' => String (lower_char c) (lower s')
  end.

(** [q in s] for two strings: [q] occurs in [s] as a substring. *)
Fixpoint contains (q s : string) : bool :=
  String.prefix q s
  || match s with
     | EmptyString => false
     | String _ s' => contains q s'
     end.

End PyStr.

(* ================================================================= *)
(** ** Python dictionaries, in insertion order *)

Module Dict.

Definition t (K V : Type) : Type := list (K * V).

Definition empty {K V : Type} : t K V := [].

(** [d.get(k)] *)
Fixpoint get {K V : Type} (eqb : K -> K -> bool) (k : K) (d : t K V)
  : option V :=
  match d with
  | [] => None
  | (k', v) :: d' => if eqb k k' then Some v else get eqb k d'
  end.

(** [k in d] *)
Definition mem {K V : Type} (eqb : K -> K -> bool) (k : K) (d : t K V)
  : bool :=
  match get eqb k d with Some _ => true | None => false end.

(** [d[k] = v]: a key already present keeps its place, a new key goes
    last. *)
Fixpoint set {K V : Type} (eqb : K -> K -> bool) (k : K) (v : V)
  (d : t K V) : t K V :=
  match d with
  | [] => [(k, v)]
  | (k', v') :: d' =>
      if eqb k k' then (k', v) :: d' else (k', v') :: set eqb k v d'
  end.

(** [d.pop(k, None)]: the dictionary without [k], and what was there. *)
Fixpoint pop {K V : Type} (eqb : K -> K -> bool) (k : K) (d : t K V)
  : t K V * option V :=
  match d with
  | [] => ([], None)
  | (k', v') :: d' =>
      if eqb k k' then (d', Some v')
      else let (r, o) := pop eqb k d' in ((k', v') :: r, o)
  end.

(** [d.keys()], [d.values()], [len(d)] *)
Definition keys {K V : Type} (d : t K V) : list K := map fst d.
Definition values {K V : Type} (d : t K V) : list V := map snd d.
Definition len {K V : Type} (d : t K V) : nat := List.length d.

(** What Python's hash table guarantees: no key occurs twice. *)
Definition wf {K V : Type} (d : t K V) : Prop := NoDup (keys d).

End Dict.

(* ================================================================= *)
(** ** Python floats *)

Module PyFloat.

Local Open Scope float_scope.

(** [float(n)] for a length [n]: the nearest float, ties to even. A
    length is at most [sys.maxsize], below 2^63. *)
Definition of_nat (n : nat) : float :=
  PrimFloat.of_uint63 (Uint63.of_Z (Z.of_nat n)).

(** [sum(xs)]: the items are added left to right, starting from 0
    (the plain loop; CPython from 3.12 on carries a compensation term
    for the rounding errors besides). *)
Definition sum (xs : list float) : float :=
  fold_left PrimFloat.add xs 0.

(** [bool(x)]: a float is false exactly when it equals zero (of either
    sign); NaN is true. *)
Definition truthy (x : float) : bool := negb (x =? 0).

(** Python's [==] on floats. *)
Definition py_eq (x y : float) : Prop := (x =? y) = true.

(** [lo <= x <= hi] *)
Definition between (lo x hi : float) : bool := (lo <=? x) && (x <=? hi).

(** The integer nearest to [n / d], ties to even ([0 < d]). *)
Definition div_half_even (n d : Z) : Z :=
  let q := (n / d)%Z in
  let r := (n mod d)%Z in
  match (2 * r ?= d)%Z with
  | Lt => q
  | Gt => (q + 1)%Z
  | Eq => if Z.even q then q else (q + 1)%Z
  end.

(** The hundredths in [m * 2^e], correctly rounded. *)
Definition hundredths (m : positive) (e : Z) : Z :=
  match e with
  | Zneg p => div_half_even (Zpos m * 100) (2 ^ Zpos p)
  | _ => (Zpos m * 2 ^ e * 100)%Z
  end.

Definition digits (n : Z) : string :=
  NilZero.string_of_uint (N.to_uint (Z.to_N n)).

Definition two_digits (n : Z) : string :=
  if (n <? 10)%Z then "0" ++ digits n else digits n.

Definition sign_str (s : bool) : string := if s then "-" else "".

(** [f"{x:.2f}"]: the exact binary value rounded to two decimals, ties
    to even; the sign is printed also when the digits are all zero. *)
Definition format_2f (x : float) : string :=
  match Prim2SF x with
  | S754_nan => "nan"
  | S754_infinity s => sign_str s ++ "inf"
  | S754_zero s => sign_str s ++ "0.00"
  | S754_finite s m e =>
      let h := hundredths m e in
      sign_str s ++ digits (h / 100) ++ "." ++ two_digits (h mod 100)
  end.

End PyFloat.

(* ================================================================= *)
(** ** Python's stable sort *)

Module PySort.

Section Sort.
Context {A K : Type}.
Variable lt : K -> K -> bool.
Variable key : A -> K.

(** [x] goes in front of the first element whose key is not below its
    own, so it stays ahead of the elements that compare equal to it. *)
Fixpoint insert (x : A) (l : list A) : list A :=
  match l with
  | [] => [x]
  | y :: l' => if lt (key y) (key x) then y :: insert x l' else x :: l
  end.

(** [sorted(l, key=key)]: ascending, using [<] only, and stable. *)
Fixpoint sorted (l : list A) : list A :=
  match l with
  | [] => []
  | x :: l' => insert x (sorted l')
  end.

(** [l.sort(key=key, reverse=True)]: the list is reversed, sorted and
    reversed again, which keeps equal keys in their original order.
    Where [lt] orders the keys this is the list CPython returns, as
    any two stable sorts agree there. Where it does not, as with a
    NaN among floats, the result depends on the comparisons the
    algorithm happens to make: CPython merges runs, [sorted] inserts
    one by one, and the two lists can differ. *)
Definition sorted_reverse (l : list A) : list A :=
  rev (sorted (rev l)).

End Sort.

(** [l[:n]]: a negative [n] counts from the end. *)
Definition slice_to {A : Type} (l : list A) (n : Z) : list A :=
  if (n <? 0)%Z then firstn (Z.to_nat (Z.of_nat (List.length l) + n)) l
  else firstn (Z.to_nat n) l.

End PySort.

(* ================================================================= *)
(** ** Exceptions *)

Inductive exn : Type :=
| AssertionError (msg : string)
| ValueError (msg : string)
| KeyError (key : string).

Inductive outcome (A : Type) : Type :=
| Ok (a : A)
| Raise (e : exn).

Arguments Ok {A} a.
Arguments Raise {A} e.

(* ================================================================= *)
(** ** class Student *)

(** [Dict[str, float]], subject -> mark *)
Definition Marks : Type := Dict.t string float.

Record Student : Type := mkStudent {
  name : string;
  roll : Z;
  marks : Marks
}.

(** [Student.__init__(self, name, roll, marks=None)]. [marks or {}]
    takes a fresh empty dictionary when [marks] is [None] or empty. *)
Definition Student_init (name : string) (roll : Z) (marks : option Marks)
  : Student :=
  {| name := PyStr.strip name;
     roll := roll;
     marks := match marks with
              | Some ((_ :: _) as m) => m
              | _ => Dict.empty
              end |}.

(** [Student.set_mark]: the [assert] raises before anything is stored. *)
Definition set_mark (self : Student) (subject : string) (mark : float)
  : Student * outcome unit :=
  if PyFloat.between 0 mark 100 then
    ({| name := name self;
        roll := roll self;
        marks := Dict.set String.eqb (PyStr.strip subject) mark (marks self) |},
     Ok tt)
  else (self, Raise (AssertionError "Mark must be between 0 and 100.")).

(** [Student.get_average] *)
Definition get_average (self : Student) : option float :=
  match marks self with
  | [] => None
  | _ :: _ =>
      let total := PyFloat.sum (Dict.values (marks self)) in
      Some (total / PyFloat.of_nat (Dict.len (marks self)))%float
  end.

(** The dictionary with the entries "name", "roll" and "marks" that
    [to_dict] builds and [from_dict] reads, and that a snapshot stores
    per student. An entry may be missing from a document that is read;
    an entry that is there has the type the class annotates. A "marks"
    entry that is [null] reads as [None], like one that is missing. *)
Record StudentDict : Type := mkStudentDict {
  d_name : option string;
  d_roll : option Z;
  d_marks : option Marks
}.

(** [Student.to_dict] *)
Definition to_dict (self : Student) : StudentDict :=
  {| d_name := Some (name self);
     d_roll := Some (roll self);
     d_marks := Some (marks self) |}.

(** [Student.from_dict]: [d["name"]] and [d["roll"]] raise [KeyError]
    when missing, in this order; [d.get("marks", {})] does not. *)
Definition from_dict (d : StudentDict) : outcome Student :=
  match d_name d with
  | None => Raise (KeyError "name")
  | Some n =>
      match d_roll d with
      | None => Raise (KeyError "roll")
      | Some r => Ok (Student_init n r (d_marks d))
      end
  end.

(* ================================================================= *)
(** ** class Gradebook *)

Record Gradebook : Type := mkGradebook {
  students : Dict.t Z Student
}.

(** [Gradebook.__init__] *)
Definition Gradebook_init : Gradebook := {| students := Dict.empty |}.

(** *** Basic CRUD *)

(** [f"Roll {roll} already exists."] *)
Definition roll_exists (roll : Z) : string :=
  "Roll " ++ NilZero.string_of_int (Z.to_int roll) ++ " already exists.".

Definition add_student (self : Gradebook) (student : Student)
  : Gradebook * outcome unit :=
  if Dict.mem Z.eqb (roll student) (students self) then
    (self, Raise (ValueError (roll_exists (roll student))))
  else
    ({| students := Dict.set Z.eqb (roll student) student (students self) |},
     Ok tt).

Definition get_student (self : Gradebook) (roll : Z) : option Student :=
  Dict.get Z.eqb roll (students self).

Definition delete_student (self : Gradebook) (roll : Z)
  : Gradebook * bool :=
  let (d, o) := Dict.pop Z.eqb roll (students self) in
  ({| students := d |},
   match o with Some _ => true | None => false end).

(** [edit_student_name]: the student found is renamed in place. *)
Definition edit_student_name (self : Gradebook) (roll : Z)
  (new_name : string) : Gradebook * bool :=
  match get_student self roll with
  | None => (self, false)
  | Some (mkStudent _ s_roll s_marks) =>
      ({| students :=
            Dict.set Z.eqb roll
              {| name := PyStr.strip new_name;
                 roll := s_roll;
                 marks := s_marks |}
              (students self) |},
       true)
  end.

(** *** Searching / Listing *)

Definition search_by_name (self : Gradebook) (name_substring : string)
  : list Student :=
  let q := PyStr.lower (PyStr.strip name_substring) in
  filter (fun s => PyStr.contains q (PyStr.lower (name s)))
    (Dict.values (students self)).

Definition list_all (self : Gradebook) : list Student :=
  PySort.sorted Z.ltb roll (Dict.values (students self)).

(** *** Statistics *)

Definition class_average (self : Gradebook) : option float :=
  let avgs :=
    flat_map
      (fun s => match get_average s with
                | Some a => [a]
                | None => []
                end)
      (Dict.values (students self)) in
  match avgs with
  | [] => None
  | _ :: _ => Some (PyFloat.sum avgs / PyFloat.of_nat (List.length avgs))%float
  end.

(** [s.get_average() or 0.0]: [None] and a zero average both give way
    to [0.0]. *)
Definition score (s : Student) : float :=
  match get_average s with
  | None => 0%float
  | Some a => if PyFloat.truthy a then a else 0%float
  end.

(** [top_n_students]; the order is CPython's when no score is NaN (see
    [PySort.sorted_reverse]). *)
Definition top_n_students (self : Gradebook) (n : Z)
  : list (Student * float) :=
  let scored := map (fun s => (s, score s)) (Dict.values (students self)) in
  let scored := PySort.sorted_reverse PrimFloat.ltb snd scored in
  PySort.slice_to scored n.

(** [buckets[k] += 1]; every key used below is in the dictionary from
    the start. *)
Definition bump (k : string) (buckets : Dict.t string nat)
  : Dict.t string nat :=
  match Dict.get String.eqb k buckets with
  | Some c => Dict.set String.eqb k (c + 1)%nat buckets
  | None => buckets
  end.

(** The branch of the [if]/[elif] chain a student takes. *)
Definition grade_of (s : Student) : string :=
  match get_average s with
  | None => "F"
  | Some avg =>
      if (80 <=? avg)%float then "A"
      else if (60 <=? avg)%float then "B"
      else if (50 <=? avg)%float then "C"
      else if (40 <=? avg)%float then "D"
      else "F"
  end.

Definition grade_distribution (self : Gradebook) : Dict.t string nat :=
  fold_left (fun buckets s => bump (grade_of s) buckets)
    (Dict.values (students self))
    [("A", 0%nat); ("B", 0%nat); ("C", 0%nat); ("D", 0%nat); ("F", 0%nat)].

(** *** Persistence *)

(** [save_to_json]: the payload handed to [json.dump]. *)
Definition save_to_json (self : Gradebook) : list StudentDict :=
  map to_dict (list_all self).

(** The loop of [load_from_json] with its counter [loaded]; an
    exception leaves the students stored so far in place. *)
Fixpoint load_items (data : list StudentDict) (self : Gradebook)
  (loaded : nat) : Gradebook * outcome nat :=
  match data with
  | [] => (self, Ok loaded)
  | item :: data' =>
      match from_dict item with
      | Raise e => (self, Raise e)
      | Ok s =>
          load_items data'
            {| students := Dict.set Z.eqb (roll s) s (students self) |}
            (S loaded)
      end
  end.

(** [load_from_json] on the value [json.load] returned; the result is
    the number it prints. *)
Definition load_from_json (self : Gradebook) (data : list StudentDict)
  : Gradebook * outcome nat :=
  load_items data self 0%nat.

(** *** CSV export *)

(** What a row handed to [csv.writer] holds. *)
Inductive cell : Type :=
| CInt (z : Z)
| CStr (s : string)
| CFloat (x : float).

(** [subjects.update(ks)] on a set kept as a list without repeats. *)
Definition set_update (subjects ks : list string) : list string :=
  fold_left
    (fun acc k => if existsb (String.eqb k) acc then acc else (acc ++ [k])%list)
    ks subjects.

(** The set of all subjects, then [sorted(subjects)]. *)
Definition all_subjects (self : Gradebook) : list string :=
  let subjects :=
    fold_left (fun acc s => set_update acc (Dict.keys (marks s)))
      (Dict.values (students self)) [] in
  PySort.sorted String.ltb (fun k => k) subjects.

Definition csv_row (subjects : list string) (s : Student) : list cell :=
  ([CInt (roll s); CStr (name s)]
   ++ map (fun sub => match Dict.get String.eqb sub (marks s) with
                      | Some m => CFloat m
                      | None => CStr ""
                      end) subjects
   ++ [CStr match get_average s with
            | Some avg => PyFloat.format_2f avg
            | None => ""
            end])%list.

(** [export_to_csv]: the header row, then one row per student. *)
Definition export_to_csv (self : Gradebook) : list (list cell) :=
  let subjects := all_subjects self in
  let headers := (["roll"; "name"] ++ subjects ++ ["average"])%list in
  map CStr headers :: map (csv_row subjects) (list_all self).

(** [sample_data] *)
Definition sample_data : Gradebook :=
  let s1 := Student_init "Aman Koli" 101
              (Some [("Math", 85); ("Physics", 78); ("Chemistry", 90)])%float in
  let s2 := Student_init "Bala Rao" 102
              (Some [("Math", 65); ("Physics", 70)])%float in
  let s3 := Student_init "Chitra Sen" 103
              (Some [("Math", 92); ("English", 88); ("Biology", 85)])%float in
  fold_left (fun gb s => fst (add_student gb s)) [s1; s2; s3] Gradebook_init.

(* ================================================================= *)
(** ** The driver's mutations of a held student *)

(** [main_menu] edits marks on the object [gb.get_student(r)] returns,
    which is the object the gradebook holds: the entry under [r]
    changes in place. *)
Definition update_held (self : Gradebook) (r : Z) (s : Student)
  : Gradebook :=
  {| students := Dict.set Z.eqb r s (students self) |}.

(** [s.marks.pop(subj)] behind [if subj in s.marks] (menu 5, option 3) *)
Definition remove_mark (self : Student) (subject : string) : Student :=
  {| name := name self;
     roll := roll self;
     marks := fst (Dict.pop String.eqb subject (marks self)) |}.

(** The gradebooks a session can hold: it starts from [Gradebook()] and
    goes through the methods of the class and the two edits above. *)
Inductive reachable : Gradebook -> Prop :=
| reach_init : reachable Gradebook_init
| reach_add gb n r m :
    reachable gb ->
    reachable (fst (add_student gb (Student_init n r m)))
| reach_delete gb r :
    reachable gb -> reachable (fst (delete_student gb r))
| reach_rename gb r n :
    reachable gb -> reachable (fst (edit_student_name gb r n))
| reach_load gb data :
    reachable gb -> reachable (fst (load_from_json gb data))
| reach_set_mark gb r s subject mark :
    reachable gb -> get_student gb r = Some s ->
    reachable (update_held gb r (fst (set_mark s subject mark)))
| reach_remove_mark gb r s subject :
    reachable gb -> get_student gb r = Some s ->
    reachable (update_held gb r (remove_mark s subject)).

(* ================================================================= *)
(** ** Helper functions for the CLI *)

(** The console: the lines still to be read from standard input, and
    the texts written to standard output so far, one per call. *)
Module Console.

Record t : Type := mk {
  stdin : list string;
  stdout : list string
}.

(** How a function that reads the console ends: with a value, with
    the [EOFError] of [input] at the end of the input, or with an
    exception of the classes that it does not catch. *)
Inductive result (A : Type) : Type :=
| Return (a : A)
| EOFError
| Uncaught (e : exn).

Arguments Return {A} a.
Arguments EOFError {A}.
Arguments Uncaught {A} e.

(** The line feed that [print] ends its text with. *)
Definition nl : string := String (ascii_of_nat 10) EmptyString.

End Console.

(** What [int(s)] and [float(s)] make of a string: a value, or a
    [ValueError] with its message. *)
Inductive parsed (A : Type) : Type :=
| Parsed (a : A)
| NotParsed (msg : string).

Arguments Parsed {A} a.
Arguments NotParsed {A} msg.

Section Interactive.

(** [int] and [float] on strings are Python's own; the functions
    below are taken for any behaviour of the two. *)
Variable py_int : string -> parsed Z.
Variable py_float : string -> parsed float.

(** [input_int]: each [input(prompt)] writes the prompt and reads a
    line; a line that is no integer is answered and the loop goes
    on. *)
Fixpoint input_int (prompt : string) (stdin stdout : list string)
  : Console.t * Console.result Z :=
  match stdin with
  | [] => (Console.mk [] (stdout ++ [prompt])%list, Console.EOFError)
  | line :: rest =>
      match py_int line with
      | Parsed val =>
          (Console.mk rest (stdout ++ [prompt])%list, Console.Return val)
      | NotParsed _ =>
          input_int prompt rest
            (stdout
             ++ [prompt;
                 ("Please enter a valid integer." ++ Console.nl)%string])%list
      end
  end.

(** [input_float] *)
Fixpoint input_float (prompt : string) (stdin stdout : list string)
  : Console.t * Console.result float :=
  match stdin with
  | [] => (Console.mk [] (stdout ++ [prompt])%list, Console.EOFError)
  | line :: rest =>
      match py_float line with
      | Parsed val =>
          (Console.mk rest (stdout ++ [prompt])%list, Console.Return val)
      | NotParsed _ =>
          input_float prompt rest
            (stdout
             ++ [prompt;
                 ("Please enter a valid number." ++ Console.nl)%string])%list
      end
  end.

(** The loop of [create_student_interactive] that reads subjects and
    marks into [s] until a subject reads "done". A mark that [float]
    or [set_mark] refuses is reported and left out. *)
Fixpoint read_marks (s : Student) (stdin stdout : list string)
  : Console.t * Console.result Student :=
  let out1 := (stdout ++ [" Subject name (or 'done'): "])%list in
  match stdin with
  | [] => (Console.mk [] out1, Console.EOFError)
  | line1 :: rest1 =>
      let subj := PyStr.strip line1 in
      if String.eqb (PyStr.lower subj) "done" then
        (Console.mk rest1 out1, Console.Return s)
      else
        let out2 :=
          (out1 ++ [("  Mark for " ++ subj ++ ": ")%string])%list in
        match rest1 with
        | [] => (Console.mk [] out2, Console.EOFError)
        | line2 :: rest2 =>
            let mark_in := PyStr.strip line2 in
            match py_float mark_in with
            | NotParsed msg =>
                read_marks s rest2
                  (out2
                   ++ [("  Invalid mark: " ++ msg ++ Console.nl)%string])%list
            | Parsed mark =>
                match set_mark s subj mark with
                | (s', Ok _) => read_marks s' rest2 out2
                | (s', Raise (AssertionError msg))
                | (s', Raise (ValueError msg)) =>
                    read_marks s' rest2
                      (out2
                   ++ [("  Invalid mark: " ++ msg ++ Console.nl)%string])%list
                | (s', Raise e) => (Console.mk rest2 out2, Console.Uncaught e)
                end
            end
        end
  end.

(** [create_student_interactive] *)
Definition create_student_interactive (stdin stdout : list string)
  : Console.t * Console.result Student :=
  let out1 := (stdout ++ ["Name: "])%list in
  match stdin with
  | [] => (Console.mk [] out1, Console.EOFError)
  | line :: rest =>
      let name := PyStr.strip line in
      match input_int "Roll (integer): " rest out1 with
      | (c, Console.Return roll) =>
          read_marks (Student_init name roll None) (Console.stdin c)
            (Console.stdout c
             ++ [("Enter marks for subjects. Type 'done' when finished."
                  ++ Console.nl)%string])%list
      | (c, Console.EOFError) => (c, Console.EOFError)
      | (c, Console.Uncaught e) => (c, Console.Uncaught e)
      end
  end.

End Interactive.

(* ================================================================= *)
(** ** Vocabulary of the properties *)

(** [len()] never exceeds [sys.maxsize]. *)
Definition sys_maxsize : Z := 2 ^ 63 - 1.

(** A name as the class stores it: stripping it changes nothing. *)
Definition stripped (s : string) : Prop := PyStr.strip s = s.

(** The invariant of a gradebook: the rolls are distinct, every student
    sits under its own roll, and every name is stored stripped. *)
Definition Gradebook_inv (gb : Gradebook) : Prop :=
  Dict.wf (students gb)
  /\ Forall (fun kv => roll (snd kv) = fst kv /\ stripped (name (snd kv)))
       (students gb).

(** A mark in the range [set_mark] accepts. *)
Definition valid_mark (m : float) : Prop := PyFloat.between 0 m 100 = true.

(** A record whose marks are all in range. *)
Definition valid_student (s : Student) : Prop :=
  Forall (fun kv => valid_mark (snd kv)) (marks s)
  /\ Z.of_nat (Dict.len (marks s)) <= sys_maxsize.

Definition valid_gradebook (gb : Gradebook) : Prop :=
  Forall valid_student (Dict.values (students gb)).

(** Two gradebooks hold the same record under every roll. *)
Definition same_records (g1 g2 : Gradebook) : Prop :=
  forall r, get_student g1 r = get_student g2 r.

(** A record that has at least one mark. *)
Definition has_marks (s : Student) : bool :=
  match marks s with [] => false | _ :: _ => true end.

(** A float that is a number. *)
Definition not_nan (x : float) : Prop := Prim2SF x <> S754_nan.

(** The arithmetic mean, as Python computes it. *)
Definition mean (xs : list float) : float :=
  (PyFloat.sum xs / PyFloat.of_nat (List.length xs))%float.

(** The five grades, in the order of the table. *)
Definition grades : list string := ["A"; "B"; "C"; "D"; "F"].

(** The table of grades as the specification words it: the bucket an
    average belongs to. *)
Definition in_bucket (g : string) (avg : option float) : bool :=
  match avg with
  | None => String.eqb g "F"
  | Some a =>
      (String.eqb g "A" && (80 <=? a)
       || String.eqb g "B" && (60 <=? a) && (a <? 80)
       || String.eqb g "C" && (50 <=? a) && (a <? 60)
       || String.eqb g "D" && (40 <=? a) && (a <? 50)
       || String.eqb g "F" && (a <? 40))%float
  end.

(** Every average in the list is a number. *)
Definition averages_defined (l : list Student) : Prop :=
  Forall (fun s => forall a, get_average s = Some a -> not_nan a) l.

(** How many of the records fall into bucket [g]. *)
Definition bucket_size (g : string) (l : list Student) : nat :=
  List.length (filter (fun s => in_bucket g (get_average s)) l).

(** [x] may stand before [y] in a sorted list: the key of [y] is not
    below the key of [x]. *)
Definition ordered {A K : Type} (lt : K -> K -> bool) (key : A -> K)
  (x y : A) : Prop :=
  lt (key y) (key x) = false.

(** The entry a record is stored as. *)
Definition entry (s : Student) : Z * Student := (roll s, s).

(** How many of the records take the branch of grade [g]. *)
Definition count_grade (g : string) (l : list Student) : nat :=
  List.length (filter (fun s => String.eqb (grade_of s) g) l).

(** A pair stands above another: its score is at least the other's. *)
Definition outranks (p q : Student * float) : Prop :=
  (snd q <=? snd p)%float = true.

(** The character of the decimal digit [d]. *)
Definition digit_char (d : Z) : ascii := ascii_of_nat (48 + Z.to_nat d).

(** [h] is the integer nearest to [100 * m * 2^e], and the even one
    where that number lies half way between two integers. *)
Definition nearest_hundredths (m : positive) (e h : Z) : Prop :=
  let num := Zpos m * 2 ^ Z.max 0 e * 100 in
  let den := 2 ^ Z.max 0 (- e) in
  Z.abs (2 * num - 2 * h * den) <= den
  /\ (Z.abs (2 * num - 2 * h * den) = den -> Z.even h = true).

(** "Formatted to two decimal places", as the specification words it:
    [t] is the sign, the integer part in decimal, a point and two
    digits, and the number so written is the nearest to [x] among
    those with two decimals (half way, the one with an even last
    digit). A zero keeps its sign; an infinity and NaN are spelled
    out. *)
Definition two_decimals (x : float) (t : string) : Prop :=
  match Prim2SF x with
  | S754_nan => t = "nan"
  | S754_infinity s => t = (if s then "-inf" else "inf")
  | S754_zero s => t = (if s then "-0.00" else "0.00")
  | S754_finite s m e =>
      exists h : Z,
        nearest_hundredths m e h
        /\ t = (if s then "-" else "")
               ++ NilZero.string_of_uint (N.to_uint (Z.to_N (h / 100)))
               ++ "."
               ++ String (digit_char (h / 10 mod 10))
                    (String (digit_char (h mod 10)) "")
  end.

(** An item of a document that has the two entries [from_dict] asks
    for. *)
Definition complete (d : StudentDict) : Prop :=
  d_name d <> None /\ d_roll d <> None.

(** The records of the items of a document that can be read, in the
    order of the document. *)
Definition decoded (data : list StudentDict) : list Student :=
  flat_map (fun d => match from_dict d with
                     | Ok s => [s]
                     | Raise _ => []
                     end) data.

(** What [input_int] and [input_float] write for the lines it turns down. *)
Definition int_retries (prompt : string) (bad : list string) : list string :=
  flat_map (fun _ : string =>
              [prompt; "Please enter a valid integer." ++ Console.nl]) bad.

Definition float_retries (prompt : string) (bad : list string)
  : list string :=
  flat_map (fun _ : string =>
              [prompt; "Please enter a valid number." ++ Console.nl]) bad.

Definition refused {A : Type} (parse : string -> parsed A) (line : string)
  : Prop :=
  exists msg, parse line = NotParsed msg.

(** What [read_marks] keeps of a record: its name and roll, marks in
    range and subjects that are distinct. *)
Definition well_kept (s0 s : Student) : Prop :=
  name s = name s0 /\ roll s = roll s0
  /\ (Forall (fun kv => valid_mark (snd kv)) (marks s0) ->
      Forall (fun kv => valid_mark (snd kv)) (marks s))
  /\ (Dict.wf (marks s0) -> Dict.wf (marks s)).

(** The lines of a session that gives [entries] of a subject and a
    mark each. *)
Definition entry_lines (entries : list (string * string)) : list string :=
  flat_map (fun e => [fst e; snd e]) entries.

(** For the examples: the sample gradebook filled in the opposite
    order, a gradebook where two records share an average (entered
    under the rolls 2, 1 and 3), and two parsers that know a few
    literals. *)
Definition sample_reversed : Gradebook :=
  {| students := rev (students sample_data) |}.

Definition tied_data : Gradebook :=
  let s1 := Student_init "Dev Shah" 2
              (Some [("Math", 40); ("Physics", 60)])%float in
  let s2 := Student_init "Esha Roy" 1 (Some [("Math", 50)])%float in
  let s3 := Student_init "Farid Ali" 3 (Some [("Math", 90)])%float in
  fold_left (fun gb s => fst (add_student gb s)) [s1; s2; s3] Gradebook_init.

Definition demo_int (s : string) : parsed Z :=
  if String.eqb s "101" then Parsed 101
  else if String.eqb s "7" then Parsed 7
  else NotParsed "invalid literal for int()".

Definition demo_float (s : string) : parsed float :=
  if String.eqb s "85" then Parsed 85%float
  else if String.eqb s "250" then Parsed 250%float
  else NotParsed "could not convert string to float".

(** A number that is not negative: zero of either sign, a positive
    finite number or plus infinity, and not NaN. *)
Definition nonneg (x : spec_float) : bool :=
  match x with
  | S754_nan => false
  | S754_zero _ => true
  | S754_infinity s | S754_finite s _ _ => negb s
  end.

(* ================================================================= *)
(** * Properties *)

(** ** Binary64 arithmetic *)

(** Facts about the IEEE 754 operations behind Python's floats, read
    off their specification in [SpecFloat]. *)
Module FloatFacts.

Local Open Scope float_scope.

Ltac cmp_cases :=
  repeat match goal with
  | H : context [Z.compare ?a ?b] |- _ => destruct (Z.compare_spec a b)
  | |- context [Z.compare ?a ?b] => destruct (Z.compare_spec a b)
  | H : context [Pos.compare_cont Eq ?a ?b] |- _ =>
      change (Pos.compare_cont Eq a b) with (Pos.compare a b) in *;
      destruct (Pos.compare_spec a b)
  | |- context [Pos.compare_cont Eq ?a ?b] =>
      change (Pos.compare_cont Eq a b) with (Pos.compare a b) in *;
      destruct (Pos.compare_spec a b)
  end.

Ltac sf_cases := simpl in *; cmp_cases; simpl in *; subst;
  try congruence; try lia.

Lemma SFcompare_antisym x y :
  SFcompare y x = option_map CompOpp (SFcompare x y).
Proof.
  destruct x as [[]|[]| |[] m1 e1], y as [[]|[]| |[] m2 e2]; try reflexivity;
    sf_cases.
Qed.

Lemma SFleb_trans x y z :
  SFleb x y = true -> SFleb y z = true -> SFleb x z = true.
Proof.
  unfold SFleb.
  destruct x as [[]|[]| |[] m1 e1], y as [[]|[]| |[] m2 e2],
           z as [[]|[]| |[] m3 e3]; try reflexivity; try discriminate;
  sf_cases.
Qed.

Lemma SFleb_zero_nonneg x : SFleb (S754_zero false) x = true -> nonneg x = true.
Proof. destruct x as [[]|[]| |[] m e]; cbn; congruence. Qed.

Lemma shr_1_m mrs : (0 <= shr_m mrs)%Z -> shr_m (shr_1 mrs) = (shr_m mrs / 2)%Z.
Proof.
  destruct mrs as [m r s]; cbn [shr_m shr_1].
  destruct m as [|[p|p|]|p]; intros H; cbn [shr_m]; try lia; try reflexivity.
  - apply Z.div_unique with (r := 1%Z); lia.
  - apply Z.div_unique with (r := 0%Z); lia.
Qed.

Lemma shr_1_nonneg mrs : (0 <= shr_m mrs)%Z -> (0 <= shr_m (shr_1 mrs))%Z.
Proof.
  intros H. rewrite shr_1_m by assumption. apply Z.div_pos; lia.
Qed.

Lemma iter_shr_1_nonneg p : forall mrs, (0 <= shr_m mrs)%Z ->
  (0 <= shr_m (iter_pos shr_1 p mrs))%Z.
Proof.
  induction p as [p IH|p IH|]; intros mrs H; cbn [iter_pos];
    auto using shr_1_nonneg.
Qed.

Lemma iter_shr_1_m p : forall mrs, (0 <= shr_m mrs)%Z ->
  shr_m (iter_pos shr_1 p mrs) = (shr_m mrs / 2 ^ Zpos p)%Z.
Proof.
  induction p as [p IH|p IH|]; intros mrs H; cbn [iter_pos].
  - rewrite IH, IH, shr_1_m by auto using iter_shr_1_nonneg, shr_1_nonneg.
    rewrite !Z.div_div by lia. f_equal.
    change (Zpos p~1) with (2 * Zpos p + 1)%Z.
    rewrite Z.pow_add_r, Z.pow_twice_r by lia. lia.
  - rewrite IH, IH by auto using iter_shr_1_nonneg.
    rewrite !Z.div_div by lia. f_equal.
    change (Zpos p~0) with (2 * Zpos p)%Z. rewrite Z.pow_twice_r. lia.
  - rewrite shr_1_m by auto. reflexivity.
Qed.

Lemma digits2_pos_bounds p :
  (2 ^ (Zpos (digits2_pos p) - 1) <= Zpos p < 2 ^ Zpos (digits2_pos p))%Z.
Proof.
  induction p as [p IH|p IH|]; cbn [digits2_pos].
  - rewrite Pos2Z.inj_succ, Z.pow_succ_r by lia.
    change (Zpos p~1) with (2 * Zpos p + 1)%Z.
    replace (Z.succ (Zpos (digits2_pos p)) - 1)%Z
      with (Z.succ (Zpos (digits2_pos p) - 1)) by lia.
    rewrite Z.pow_succ_r by lia. lia.
  - rewrite Pos2Z.inj_succ, Z.pow_succ_r by lia.
    change (Zpos p~0) with (2 * Zpos p)%Z.
    replace (Z.succ (Zpos (digits2_pos p)) - 1)%Z
      with (Z.succ (Zpos (digits2_pos p) - 1)) by lia.
    rewrite Z.pow_succ_r by lia. lia.
  - cbn. lia.
Qed.

Lemma Zdigits2_le m k : (0 <= k -> 0 <= m < 2 ^ k -> Zdigits2 m <= k)%Z.
Proof.
  intros Hk [H0 Hm]. destruct m as [|p|p]; cbn [Zdigits2]; try lia.
  destruct (digits2_pos_bounds p) as [L _].
  destruct (Z_le_gt_dec (Zpos (digits2_pos p)) k) as [|G]; [assumption|exfalso].
  assert (2 ^ k <= 2 ^ (Zpos (digits2_pos p) - 1))%Z
    by (apply Z.pow_le_mono_r; lia).
  lia.
Qed.

(** One pass of [shr_fexp] on a positive mantissa at or above [emin]. *)
Lemma shr_fexp_pos m e l mrs e' :
  (0 < m)%Z -> (emin <= e)%Z ->
  shr_fexp prec emax m e l = (mrs, e') ->
  (0 < shr_m mrs <= m)%Z /\
  (emin <= e')%Z /\
  (e' <= Z.max e (Zdigits2 m + e - prec))%Z.
Proof.
  intros Hm He. unfold shr_fexp, shr, fexp.
  assert (Hs : shr_m (shr_record_of_loc m l) = m)
    by (destruct l as [|[]]; reflexivity).
  destruct (Z.max (Zdigits2 m + e - prec) (emin) - e)%Z
    as [|k|k] eqn:E; intros [= <- <-].
  1,3: rewrite Hs; lia.
  rewrite iter_shr_1_m, Hs by lia.
  destruct m as [|p|p]; try lia. cbn [Zdigits2] in *.
  destruct (digits2_pos_bounds p) as [L U].
  assert (Hk : (Zpos k = Zpos (digits2_pos p) - prec)%Z) by lia.
  assert (P : (0 < 2 ^ Zpos k)%Z) by (apply Z.pow_pos_nonneg; lia).
  repeat split; try lia.
  - apply Z.div_str_pos. split; [lia|].
    apply Z.le_trans with (2 ^ (Zpos (digits2_pos p) - 1))%Z; [|lia].
    apply Z.pow_le_mono_r; unfold prec in *; lia.
  - apply Z.div_le_upper_bound; nia.
Qed.

Lemma shr_fexp_nonneg m e l :
  (0 <= m)%Z -> (0 <= shr_m (fst (shr_fexp prec emax m e l)))%Z.
Proof.
  intros Hm. unfold shr_fexp, shr.
  assert (Hs : shr_m (shr_record_of_loc m l) = m)
    by (destruct l as [|[]]; reflexivity).
  destruct (fexp prec emax (Zdigits2 m + e) - e)%Z; cbn [fst];
    try apply iter_shr_1_nonneg; rewrite Hs; assumption.
Qed.

Lemma round_nearest_even_bounds m l :
  (m <= round_nearest_even m l <= m + 1)%Z.
Proof.
  destruct l as [|[]]; cbn [round_nearest_even];
    try destruct (Z.even m); lia.
Qed.

(** Rounding a mantissa that is not negative, with a positive sign,
    never gives NaN or a negative number. *)
Lemma binary_round_aux_nonneg m e l :
  (0 <= m)%Z -> nonneg (binary_round_aux prec emax false m e l) = true.
Proof.
  intros Hm. unfold binary_round_aux.
  pose proof (shr_fexp_nonneg m e l Hm) as H1.
  destruct (shr_fexp prec emax m e l) as [mrs' e']. cbn [fst] in H1.
  pose proof (round_nearest_even_bounds (shr_m mrs')
                (loc_of_shr_record mrs')) as H2.
  pose proof (shr_fexp_nonneg
    (round_nearest_even (shr_m mrs') (loc_of_shr_record mrs')) e'
    loc_Exact) as H3.
  destruct (shr_fexp prec emax _ e' loc_Exact) as [mrs'' e'']. cbn [fst] in H3.
  destruct (shr_m mrs'') as [|q|q]; [reflexivity| |lia].
  destruct (e'' <=? emax - prec)%Z; reflexivity.
Qed.

(** Rounding a positive mantissa of at most [k] bits, far from both
    ends of the exponent range, gives a positive finite number. *)
Lemma binary_round_aux_finite m e l k :
  (0 < m < 2 ^ k)%Z -> (0 <= k)%Z ->
  (emin <= e)%Z -> (e + 2 * k + 1 <= emax - prec)%Z ->
  exists m' e',
    binary_round_aux prec emax false m e l = S754_finite false m' e'.
Proof.
  intros [Hm Hk] Hk0 He Hb. unfold binary_round_aux.
  destruct (shr_fexp prec emax m e l) as [mrs' e'] eqn:E1.
  destruct (shr_fexp_pos _ _ _ _ _ Hm He E1) as ([P1 U1] & L1 & B1).
  pose proof (round_nearest_even_bounds (shr_m mrs')
                (loc_of_shr_record mrs')) as H2.
  set (m1 := round_nearest_even (shr_m mrs') (loc_of_shr_record mrs')) in *.
  destruct (shr_fexp prec emax m1 e' loc_Exact) as [mrs'' e''] eqn:E2.
  assert (Hm1 : (0 < m1)%Z) by lia.
  destruct (shr_fexp_pos _ _ _ _ _ Hm1 L1 E2) as ([P2 U2] & L2 & B2).
  assert (D0 : (Zdigits2 m <= k)%Z) by (apply Zdigits2_le; lia).
  assert (D1 : (Zdigits2 m1 <= k + 1)%Z).
  { apply Zdigits2_le; [lia|]. rewrite Z.pow_add_r, Z.pow_1_r by lia. lia. }
  destruct (shr_m mrs'') as [|q|q]; try lia.
  replace (e'' <=? emax - prec)%Z with true; [eauto|].
  symmetry. apply Z.leb_le. unfold prec, emax in *. lia.
Qed.

Lemma iter_xO_pow p d : Zpos (Pos.iter xO p d) = (Zpos p * 2 ^ Zpos d)%Z.
Proof.
  induction d as [|d IH] using Pos.peano_ind.
  - cbn. lia.
  - rewrite Pos.iter_succ, Pos2Z.inj_succ, Z.pow_succ_r by lia.
    change (Zpos (Pos.iter xO p d)~0) with (2 * Zpos (Pos.iter xO p d))%Z.
    rewrite IH. lia.
Qed.

(** [float(n)] of a positive integer below 2^63 is positive and finite. *)
Lemma binary_normalize_small p :
  (Zpos p < 2 ^ 63)%Z ->
  exists m e,
    binary_normalize prec emax (Zpos p) 0 false = S754_finite false m e.
Proof.
  intros Hp. cbn [binary_normalize]. unfold binary_round, shl_align.
  destruct (digits2_pos_bounds p) as [L U].
  assert (D : (Zpos (digits2_pos p) <= 63)%Z)
    by (apply (Zdigits2_le (Zpos p) 63); lia).
  unfold fexp. unfold emin, prec, emax in *.
  destruct (Z.max (Zpos (digits2_pos p) + 0 - 53) (3 - 1024 - 53) - 0)%Z
    as [|d|d] eqn:E.
  1,2: apply binary_round_aux_finite with (k := 63%Z);
    unfold SpecFloat.emin, prec, emax; lia.
  apply binary_round_aux_finite with (k := 115%Z);
    unfold SpecFloat.emin, prec, emax; try lia.
  rewrite iter_xO_pow. split; [lia|].
  change 115%Z with (63 + 52)%Z. rewrite Z.pow_add_r by lia.
  assert (2 ^ Zpos d <= 2 ^ 52)%Z by (apply Z.pow_le_mono_r; lia).
  assert (0 < 2 ^ Zpos d)%Z by (apply Z.pow_pos_nonneg; lia).
  nia.
Qed.

Lemma binary_normalize_nonneg m e :
  (0 <= m)%Z -> nonneg (binary_normalize prec emax m e false) = true.
Proof.
  intros Hm. destruct m as [|p|p]; [reflexivity| |lia].
  cbn [binary_normalize]. unfold binary_round.
  destruct (shl_align _ _ _) as [mz ez].
  apply binary_round_aux_nonneg. lia.
Qed.

Lemma SFadd_nonneg x y :
  nonneg x = true -> nonneg y = true -> nonneg (SF64add x y) = true.
Proof.
  unfold SF64add.
  destruct x as [[]|[]| |[] mx ex], y as [[]|[]| |[] my ey];
    cbn [SFadd nonneg negb]; try congruence; intros _ _.
  apply binary_normalize_nonneg. cbn [cond_Zopp]. lia.
Qed.

Lemma SFdiv_nonneg x my ey :
  nonneg x = true -> nonneg (SF64div x (S754_finite false my ey)) = true.
Proof.
  destruct x as [[]|[]| |[] mx ex]; cbn; try congruence; intros _.
  unfold SFdiv_core_binary.
  set (s := (ex - ey - _)%Z).
  set (m' := match s with
             | Z0 => Zpos mx
             | Zpos _ => Z.shiftl (Zpos mx) s
             | Zneg _ => 0%Z
             end).
  assert (Hm' : (0 <= m')%Z).
  { subst m'. destruct s; try lia. apply Z.shiftl_nonneg. lia. }
  pose proof (Z_div_mod m' (Zpos my) ltac:(lia)) as H.
  destruct (Z.div_eucl m' (Zpos my)) as [q r].
  apply binary_round_aux_nonneg. nia.
Qed.

(** *** The same facts on primitive floats *)

Lemma Prim2SF_zero : Prim2SF 0 = S754_zero false.
Proof. reflexivity. Qed.

Lemma leb_zero_nonneg x : (0 <=? x) = true -> nonneg (Prim2SF x) = true.
Proof.
  rewrite leb_spec, Prim2SF_zero. apply SFleb_zero_nonneg.
Qed.

Lemma add_nonneg x y :
  nonneg (Prim2SF x) = true -> nonneg (Prim2SF y) = true ->
  nonneg (Prim2SF (x + y)) = true.
Proof. rewrite add_spec. apply SFadd_nonneg. Qed.

Lemma sum_from_nonneg xs : forall acc,
  nonneg (Prim2SF acc) = true ->
  Forall (fun x => nonneg (Prim2SF x) = true) xs ->
  nonneg (Prim2SF (fold_left PrimFloat.add xs acc)) = true.
Proof.
  induction xs as [|x xs IH]; intros acc Ha Hx; cbn [fold_left].
  - assumption.
  - inversion Hx; subst. apply IH; auto using add_nonneg.
Qed.

Lemma sum_nonneg xs :
  Forall (fun x => nonneg (Prim2SF x) = true) xs ->
  nonneg (Prim2SF (PyFloat.sum xs)) = true.
Proof. intros H. apply sum_from_nonneg; [reflexivity|assumption]. Qed.

Lemma of_nat_finite n :
  (0 < n)%nat -> (Z.of_nat n <= sys_maxsize)%Z ->
  exists m e, Prim2SF (PyFloat.of_nat n) = S754_finite false m e.
Proof.
  unfold sys_maxsize, PyFloat.of_nat. intros Hn Hm.
  rewrite of_uint63_spec, Uint63.of_Z_spec.
  change Uint63.wB with (2 ^ 63)%Z.
  rewrite Z.mod_small by lia.
  destruct (Z.of_nat n) as [|p|p] eqn:E; try lia.
  apply binary_normalize_small. lia.
Qed.

Lemma div_nonneg x n :
  nonneg (Prim2SF x) = true ->
  (0 < n)%nat -> (Z.of_nat n <= sys_maxsize)%Z ->
  nonneg (Prim2SF (x / PyFloat.of_nat n)) = true.
Proof.
  intros Hx Hn Hm. rewrite div_spec.
  destruct (of_nat_finite n Hn Hm) as (m & e & ->).
  apply SFdiv_nonneg, Hx.
Qed.

(** *** Order *)

Lemma nonneg_not_nan x : nonneg (Prim2SF x) = true -> not_nan x.
Proof. unfold not_nan. destruct (Prim2SF x); cbn; congruence. Qed.

Lemma SFcompare_refl x : x <> S754_nan -> SFcompare x x = Some Eq.
Proof.
  destruct x as [[]|[]| |[] m e]; intros H; try congruence; cbn;
    rewrite ?Z.compare_refl, ?Pos.compare_cont_refl; reflexivity.
Qed.

Lemma float_eqb_refl x : not_nan x -> (x =? x) = true.
Proof.
  intros H. rewrite eqb_spec. unfold SFeqb.
  rewrite SFcompare_refl by assumption. reflexivity.
Qed.

Lemma ltb_leb_false x y : (x <? y) = true -> (y <=? x) = false.
Proof.
  rewrite ltb_spec, leb_spec. unfold SFltb, SFleb.
  rewrite (SFcompare_antisym (Prim2SF x) (Prim2SF y)).
  destruct (SFcompare (Prim2SF x) (Prim2SF y)) as [[]|]; cbn; congruence.
Qed.

Lemma ltb_asym x y : (x <? y) = true -> (y <? x) = false.
Proof.
  rewrite !ltb_spec. unfold SFltb.
  rewrite (SFcompare_antisym (Prim2SF x) (Prim2SF y)).
  destruct (SFcompare (Prim2SF x) (Prim2SF y)) as [[]|]; cbn; congruence.
Qed.

Lemma float_eqb_sym x y : (x =? y) = (y =? x).
Proof.
  rewrite !eqb_spec. unfold SFeqb.
  rewrite (SFcompare_antisym (Prim2SF x) (Prim2SF y)).
  destruct (SFcompare (Prim2SF x) (Prim2SF y)) as [[]|]; reflexivity.
Qed.

Lemma leb_ltb_false x y : (x <=? y) = true -> (y <? x) = false.
Proof.
  rewrite ltb_spec, leb_spec. unfold SFltb, SFleb.
  rewrite (SFcompare_antisym (Prim2SF x) (Prim2SF y)).
  destruct (SFcompare (Prim2SF x) (Prim2SF y)) as [[]|]; cbn; congruence.
Qed.

Lemma SFcompare_some x y :
  x <> S754_nan -> y <> S754_nan -> SFcompare x y <> None.
Proof.
  destruct x as [[]|[]| |[] m1 e1], y as [[]|[]| |[] m2 e2]; cbn; congruence.
Qed.

Lemma not_leb_ltb x y :
  not_nan x -> not_nan y -> (x <=? y) = false -> (y <? x) = true.
Proof.
  unfold not_nan. intros Hx Hy. rewrite ltb_spec, leb_spec.
  unfold SFltb, SFleb.
  rewrite (SFcompare_antisym (Prim2SF x) (Prim2SF y)).
  pose proof (SFcompare_some _ _ Hx Hy).
  destruct (SFcompare (Prim2SF x) (Prim2SF y)) as [[]|]; cbn; congruence.
Qed.

Lemma not_ltb_leb x y :
  not_nan x -> not_nan y -> (x <? y) = false -> (y <=? x) = true.
Proof.
  unfold not_nan. intros Hx Hy. rewrite ltb_spec, leb_spec.
  unfold SFltb, SFleb.
  rewrite (SFcompare_antisym (Prim2SF x) (Prim2SF y)).
  pose proof (SFcompare_some _ _ Hx Hy).
  destruct (SFcompare (Prim2SF x) (Prim2SF y)) as [[]|]; cbn; congruence.
Qed.

Lemma SFeqb_not_ltb x y v :
  SFeqb x v = true -> SFeqb y v = true -> SFltb x y = false.
Proof.
  unfold SFeqb, SFltb.
  destruct x as [[]|[]| |[] m1 e1], y as [[]|[]| |[] m2 e2],
           v as [[]|[]| |[] m3 e3]; try reflexivity; try discriminate;
  sf_cases.
Qed.

(** Two floats that equal a third are not in strict order. *)
Lemma eqb_not_ltb x y v :
  (x =? v) = true -> (y =? v) = true -> (x <? y) = false.
Proof. rewrite !eqb_spec, ltb_spec. apply SFeqb_not_ltb. Qed.

Lemma nonneg_leb_zero x : nonneg (Prim2SF x) = true -> (0 <=? x) = true.
Proof.
  rewrite leb_spec, Prim2SF_zero. unfold SFleb.
  destruct (Prim2SF x) as [[]|[]| |[] m e]; cbn; congruence.
Qed.

Lemma leb_trans x y z :
  (x <=? y) = true -> (y <=? z) = true -> (x <=? z) = true.
Proof. rewrite !leb_spec. apply SFleb_trans. Qed.

Lemma leb_not_nan_r x y : (x <=? y) = true -> not_nan y.
Proof.
  rewrite leb_spec. unfold not_nan, SFleb.
  destruct (Prim2SF x) as [[]|[]| |[] m1 e1], (Prim2SF y); cbn; congruence.
Qed.

End FloatFacts.

(* ================================================================= *)
(** ** Strings *)

Module StrFacts.

Import PyStr.

Lemma contains_empty s : contains "" s = true.
Proof. destruct s; reflexivity. Qed.

Lemma lstrip_head s :
  lstrip s = "" \/ exists c r, lstrip s = String c r /\ isspace c = false.
Proof.
  induction s as [|c s IH]; cbn [lstrip]; [now left|].
  destruct (isspace c) eqn:E; [exact IH|]. right. eauto.
Qed.

Lemma rstrip_head c r :
  isspace c = false -> exists r', rstrip (String c r) = String c r'.
Proof.
  intros E. cbn [rstrip]. destruct (rstrip r); [rewrite E|]; eauto.
Qed.

Lemma rstrip_idem s : rstrip (rstrip s) = rstrip s.
Proof.
  induction s as [|c s IH]; [reflexivity|]. cbn [rstrip].
  destruct (rstrip s) as [|c2 r2] eqn:E.
  - destruct (isspace c) eqn:Ec; [reflexivity|].
    cbn [rstrip]. rewrite Ec. reflexivity.
  - cbn [rstrip] in *. rewrite IH. reflexivity.
Qed.

(** Stripping twice is stripping once. *)
Lemma strip_idem s : strip (strip s) = strip s.
Proof.
  unfold strip. destruct (lstrip_head s) as [->|(c & r & -> & Ec)].
  - reflexivity.
  - destruct (rstrip_head c r Ec) as [r' E']. rewrite E'.
    cbn [lstrip]. rewrite Ec, <- E'. apply rstrip_idem.
Qed.

Lemma strip_stripped s : stripped (strip s).
Proof. apply strip_idem. Qed.

(** A string of whitespace strips to nothing, and so passes as a name
    that is stored stripped. *)
Lemma stripped_empty : stripped "".
Proof. reflexivity. Qed.

End StrFacts.

(* ================================================================= *)
(** ** Dictionaries *)

Module DictFacts.

Import Dict.

Section Facts.
Context {K V : Type}.
Variable eqb : K -> K -> bool.
Hypothesis eqb_eq : forall a b, eqb a b = true <-> a = b.

Lemma key_eqb_refl k : eqb k k = true.
Proof. now apply eqb_eq. Qed.

Lemma key_eqb_neq a b : a <> b -> eqb a b = false.
Proof.
  intros H. destruct (eqb a b) eqn:E; [|reflexivity].
  apply eqb_eq in E. contradiction.
Qed.

Lemma get_In k v (d : t K V) : get eqb k d = Some v -> In (k, v) d.
Proof.
  induction d as [|[k' v'] d IH]; cbn [get]; [discriminate|].
  destruct (eqb k k') eqn:E.
  - apply eqb_eq in E. intros [= ->]. subst. now left.
  - intros H. right. auto.
Qed.

Lemma get_None k (d : t K V) : get eqb k d = None <-> ~ In k (keys d).
Proof.
  induction d as [|[k' v'] d IH]; cbn [get keys map fst In].
  - tauto.
  - destruct (eqb k k') eqn:E.
    + apply eqb_eq in E. subst. split; [discriminate|tauto].
    + rewrite IH. split; [|tauto]. intros H [->|H']; [|tauto].
      rewrite key_eqb_refl in E. discriminate.
Qed.

Lemma In_get k v (d : t K V) : wf d -> In (k, v) d -> get eqb k d = Some v.
Proof.
  unfold wf. induction d as [|[k' v'] d IH]; cbn [get keys map fst In];
    [tauto|].
  intros Hnd [[= -> ->]|Hin].
  - rewrite key_eqb_refl. reflexivity.
  - inversion Hnd as [|? ? Hk Hd]; subst.
    destruct (eqb k k') eqn:E; [|now apply IH].
    apply eqb_eq in E. subst. exfalso. apply Hk.
    change k' with (fst (k', v)). now apply in_map.
Qed.

Lemma mem_In k (d : t K V) : mem eqb k d = true <-> In k (keys d).
Proof.
  unfold mem. destruct (get eqb k d) as [v|] eqn:E.
  - split; [intros _|reflexivity].
    apply get_In in E. change k with (fst (k, v)). now apply in_map.
  - apply get_None in E. split; [discriminate|contradiction].
Qed.

Lemma get_set_same k v (d : t K V) : get eqb k (set eqb k v d) = Some v.
Proof.
  induction d as [|[k' v'] d IH]; cbn [set get].
  - rewrite key_eqb_refl. reflexivity.
  - destruct (eqb k k') eqn:E; cbn [get]; rewrite E; auto.
Qed.

Lemma get_set_other k k' v (d : t K V) :
  k' <> k -> get eqb k' (set eqb k v d) = get eqb k' d.
Proof.
  intros Hne. induction d as [|[k2 v2] d IH]; cbn [set get].
  - rewrite key_eqb_neq by assumption. reflexivity.
  - destruct (eqb k k2) eqn:E; cbn [get].
    + apply eqb_eq in E. subst. rewrite key_eqb_neq by assumption. reflexivity.
    + rewrite IH. reflexivity.
Qed.

(** Storing what is stored already changes nothing. *)
Lemma set_same k v (d : t K V) : get eqb k d = Some v -> set eqb k v d = d.
Proof.
  induction d as [|[k' v'] d IH]; cbn [get set]; [discriminate|].
  destruct (eqb k k'); [now intros [= ->]|].
  intros H. now rewrite IH.
Qed.

(** Storing under a key that is there leaves the keys as they are. *)
Lemma set_keys_mem k v (d : t K V) :
  mem eqb k d = true -> keys (set eqb k v d) = keys d.
Proof.
  unfold mem. induction d as [|[k' v'] d IH]; cbn [set get keys map fst];
    [discriminate|].
  destruct (eqb k k') eqn:E; cbn [map fst]; [reflexivity|].
  intros H. f_equal. apply IH, H.
Qed.

(** Storing under a new key appends the entry. *)
Lemma set_fresh k v (d : t K V) :
  mem eqb k d = false -> set eqb k v d = (d ++ [(k, v)])%list.
Proof.
  unfold mem. induction d as [|[k' v'] d IH]; cbn [set get app];
    [reflexivity|].
  destruct (eqb k k') eqn:E; [discriminate|].
  intros H. f_equal. apply IH, H.
Qed.

Lemma set_wf k v (d : t K V) : wf d -> wf (set eqb k v d).
Proof.
  unfold wf. intros H. destruct (mem eqb k d) eqn:E.
  - rewrite set_keys_mem by assumption. assumption.
  - rewrite set_fresh by assumption. unfold keys. rewrite map_app.
    cbn [map fst].
    apply NoDup_app; [assumption|repeat constructor; cbn; tauto|].
    intros a Ha [<-|[]].
    apply mem_In in Ha. congruence.
Qed.

Lemma set_Forall (P : K * V -> Prop) k v (d : t K V) :
  Forall P d -> P (k, v) -> Forall P (set eqb k v d).
Proof.
  intros Hd Hp. induction Hd as [|[k' v'] d Hx Hd IH]; cbn [set].
  - repeat constructor. assumption.
  - destruct (eqb k k') eqn:E.
    + apply eqb_eq in E. subst. constructor; assumption.
    + constructor; assumption.
Qed.

Lemma pop_incl k (d : t K V) :
  forall kv, In kv (fst (pop eqb k d)) -> In kv d.
Proof.
  induction d as [|[k' v'] d IH]; cbn [pop fst]; [tauto|].
  destruct (eqb k k'); cbn [fst].
  - intros kv H. now right.
  - destruct (pop eqb k d) as [r o]. cbn [fst] in *.
    intros kv [<-|H]; [now left|right; auto].
Qed.

Lemma pop_wf k (d : t K V) : wf d -> wf (fst (pop eqb k d)).
Proof.
  unfold wf. induction d as [|[k' v'] d IH]; cbn [pop fst keys map];
    [trivial|].
  intros H. inversion H as [|? ? Hk Hd]; subst.
  destruct (eqb k k'); cbn [fst]; [assumption|].
  pose proof (pop_incl k d) as Hi.
  destruct (pop eqb k d) as [r o]. cbn [fst keys map] in *.
  constructor; [|auto].
  intros Hin. apply Hk. apply in_map_iff in Hin as ([a b] & <- & Hab).
  apply in_map. auto.
Qed.

Lemma pop_Forall (P : K * V -> Prop) k (d : t K V) :
  Forall P d -> Forall P (fst (pop eqb k d)).
Proof.
  rewrite !Forall_forall. intros H kv Hin. apply H, (pop_incl k d kv Hin).
Qed.

Lemma pop_snd k (d : t K V) : snd (pop eqb k d) = get eqb k d.
Proof.
  induction d as [|[k' v'] d IH]; cbn [pop get snd]; [reflexivity|].
  destruct (eqb k k'); [reflexivity|].
  destruct (pop eqb k d) as [r o]. exact IH.
Qed.

Lemma pop_absent k (d : t K V) : get eqb k d = None -> fst (pop eqb k d) = d.
Proof.
  induction d as [|[k' v'] d IH]; cbn [pop get fst]; [reflexivity|].
  destruct (eqb k k'); [discriminate|]. intros H.
  destruct (pop eqb k d) as [r o]. cbn [fst] in *. now rewrite IH.
Qed.

Lemma pop_get_other k k' (d : t K V) :
  k' <> k -> get eqb k' (fst (pop eqb k d)) = get eqb k' d.
Proof.
  intros Hne. induction d as [|[k2 v2] d IH]; cbn [pop get fst];
    [reflexivity|].
  destruct (eqb k k2) eqn:E.
  - apply eqb_eq in E. subst k2. cbn [fst].
    now rewrite (key_eqb_neq k' k Hne).
  - destruct (pop eqb k d) as [r o]. cbn [fst get] in *. now rewrite IH.
Qed.

(** A key that is popped is gone, as no key occurs twice. *)
Lemma pop_get_same k (d : t K V) :
  wf d -> get eqb k (fst (pop eqb k d)) = None.
Proof.
  unfold wf. induction d as [|[k2 v2] d IH]; cbn [pop get fst keys map];
    [reflexivity|].
  intros N. inversion N as [|? ? Nk Nd]; subst.
  destruct (eqb k k2) eqn:E.
  - apply eqb_eq in E. subst k2. cbn [fst]. now apply get_None.
  - specialize (IH Nd). destruct (pop eqb k d) as [r o].
    cbn [fst get] in *. now rewrite E.
Qed.

(** Popping the key that was stored last, as a new key, undoes the
    store. *)
Lemma pop_set_fresh k v (d : t K V) :
  get eqb k d = None -> pop eqb k (set eqb k v d) = (d, Some v).
Proof.
  induction d as [|[k' v'] d IH]; cbn [get set pop].
  - now rewrite key_eqb_refl.
  - destruct (eqb k k') eqn:E; [discriminate|]. intros H.
    cbn [pop]. now rewrite E, IH.
Qed.

(** The second store under a key replaces the first. *)
Lemma set_set k v1 v2 (d : t K V) :
  set eqb k v2 (set eqb k v1 d) = set eqb k v2 d.
Proof.
  induction d as [|[k' v'] d IH]; cbn [set].
  - now rewrite key_eqb_refl.
  - destruct (eqb k k') eqn:E; cbn [set]; rewrite E; [reflexivity|].
    now rewrite IH.
Qed.

Lemma set_keys_present k v v0 (d : t K V) :
  get eqb k d = Some v0 -> keys (set eqb k v d) = keys d.
Proof.
  intros H. apply set_keys_mem. unfold mem. now rewrite H.
Qed.

(** What a dictionary answers depends on its entries only, not on
    their order. *)
Lemma get_Permutation k (d1 d2 : t K V) :
  wf d1 -> Permutation d1 d2 -> get eqb k d1 = get eqb k d2.
Proof.
  intros W1 P.
  assert (W2 : wf d2).
  { unfold wf, keys in *. eapply Permutation_NoDup; [|exact W1].
    now apply Permutation_map. }
  destruct (get eqb k d1) as [v|] eqn:E1.
  - symmetry. apply In_get; [assumption|].
    eapply Permutation_in; [exact P|]. now apply get_In.
  - destruct (get eqb k d2) as [v|] eqn:E2; [|reflexivity].
    apply get_In in E2. apply Permutation_sym in P.
    rewrite (In_get k v d1 W1 (Permutation_in _ P E2)) in E1. discriminate.
Qed.

End Facts.

End DictFacts.

(* ================================================================= *)
(** ** Sorting *)

Module SortFacts.

Import PySort.

Section Facts.
Context {A K : Type}.
Variable lt : K -> K -> bool.
Variable key : A -> K.

Hypothesis lt_asym : forall a b, lt a b = true -> lt b a = false.

Lemma insert_Permutation x l : Permutation (insert lt key x l) (x :: l).
Proof.
  induction l as [|y l IH]; cbn [insert]; [reflexivity|].
  destruct (lt (key y) (key x)); [|reflexivity].
  rewrite IH. apply perm_swap.
Qed.

Lemma sorted_Permutation l : Permutation (sorted lt key l) l.
Proof.
  induction l as [|x l IH]; cbn [sorted]; [reflexivity|].
  rewrite insert_Permutation. now constructor.
Qed.

Lemma sorted_length l : List.length (sorted lt key l) = List.length l.
Proof. apply Permutation_length, sorted_Permutation. Qed.

Lemma insert_HdRel x y l :
  ordered lt key y x -> HdRel (ordered lt key) y l ->
  HdRel (ordered lt key) y (insert lt key x l).
Proof.
  intros Hyx Hl. destruct l as [|z l]; cbn [insert].
  - now constructor.
  - destruct (lt (key z) (key x)); constructor; [|assumption].
    now inversion Hl.
Qed.

Lemma insert_Sorted x l :
  Sorted (ordered lt key) l -> Sorted (ordered lt key) (insert lt key x l).
Proof.
  induction 1 as [|y l Hs IH Hh]; cbn [insert].
  - repeat constructor.
  - destruct (lt (key y) (key x)) eqn:E.
    + constructor; [assumption|].
      apply insert_HdRel; [|assumption]. now apply lt_asym.
    + repeat constructor; assumption.
Qed.

(** Neighbours in a sorted list are in order. *)
Lemma sorted_Sorted l : Sorted (ordered lt key) (sorted lt key l).
Proof.
  induction l as [|x l IH]; cbn [sorted]; [constructor|].
  now apply insert_Sorted.
Qed.

(** *** Stability *)

Variable P : A -> bool.
Hypothesis P_unordered :
  forall a b, P a = true -> P b = true -> lt (key a) (key b) = false.

Lemma insert_filter x l :
  filter P (insert lt key x l)
  = if P x then x :: filter P l else filter P l.
Proof using P_unordered.
  induction l as [|y l IH]; cbn [insert filter]; [reflexivity|].
  destruct (lt (key y) (key x)) eqn:L; cbn [filter]; [|reflexivity].
  rewrite IH. destruct (P x) eqn:Px, (P y) eqn:Py; try reflexivity.
  rewrite (P_unordered y x Py Px) in L. discriminate.
Qed.

(** Elements none of which is below another keep their order. *)
Lemma sorted_filter l : filter P (sorted lt key l) = filter P l.
Proof using P_unordered.
  induction l as [|x l IH]; cbn [sorted filter]; [reflexivity|].
  rewrite insert_filter, IH. reflexivity.
Qed.

Lemma sorted_reverse_filter l :
  filter P (sorted_reverse lt key l) = filter P l.
Proof using P_unordered.
  unfold sorted_reverse.
  now rewrite filter_rev, sorted_filter, filter_rev, rev_involutive.
Qed.

End Facts.

(** A relation that holds between neighbours holds between them under
    a weaker relation too, as far as the elements allow. *)
Lemma Sorted_weaken {A : Type} (R R' : A -> A -> Prop) (P : A -> Prop) l :
  (forall a b, P a -> P b -> R a b -> R' a b) ->
  Forall P l -> Sorted R l -> Sorted R' l.
Proof.
  intros HR HP HS. induction HS as [|x l Hs IH Hh]; [constructor|].
  inversion HP as [|? ? Px Pl]; subst.
  constructor; [auto|].
  destruct Hh as [|y l' Hxy]; constructor.
  inversion Pl; subst. auto.
Qed.

Lemma StronglySorted_app {A : Type} (R : A -> A -> Prop) l1 l2 :
  StronglySorted R l1 -> StronglySorted R l2 ->
  (forall a b, In a l1 -> In b l2 -> R a b) ->
  StronglySorted R (l1 ++ l2).
Proof.
  induction 1 as [|x l1 Hs IH Hf]; intros H2 H12; cbn [app]; [assumption|].
  constructor.
  - apply IH; [assumption|]. intros a b Ha Hb.
    apply H12; [now right|assumption].
  - apply Forall_app. split; [assumption|].
    apply Forall_forall. intros b Hb. apply H12; [now left|assumption].
Qed.

(** Reversing an ascending list gives a descending one. *)
Lemma StronglySorted_rev {A : Type} (R : A -> A -> Prop) l :
  StronglySorted R l -> StronglySorted (fun a b => R b a) (rev l).
Proof.
  induction 1 as [|x l Hs IH Hf]; cbn [rev]; [constructor|].
  apply StronglySorted_app; [assumption|repeat constructor|].
  intros a b Ha [<-|[]]. rewrite Forall_forall in Hf.
  apply Hf. now apply in_rev.
Qed.

Lemma sorted_reverse_Permutation {A K : Type} (lt : K -> K -> bool)
  (key : A -> K) l :
  Permutation (sorted_reverse lt key l) l.
Proof.
  unfold sorted_reverse.
  rewrite <- Permutation_rev, sorted_Permutation, <- Permutation_rev.
  reflexivity.
Qed.

Lemma slice_to_firstn {A : Type} (l : list A) n :
  0 <= n -> slice_to l n = firstn (Z.to_nat n) l.
Proof.
  intros H. unfold slice_to.
  destruct (n <? 0)%Z eqn:E; [apply Z.ltb_lt in E; lia|reflexivity].
Qed.

End SortFacts.

(* ================================================================= *)
(** ** class Student *)

Section StudentProperties.

Local Open Scope float_scope.

Lemma is_nan_leb_false x y : PrimFloat.is_nan x = true -> (y <=? x) = false.
Proof.
  unfold PrimFloat.is_nan. intros H.
  destruct (y <=? x) eqn:E; [|reflexivity].
  apply FloatFacts.leb_not_nan_r, FloatFacts.float_eqb_refl in E.
  rewrite E in H. discriminate.
Qed.

(** C2. A mark below 0, above 100 or not a number makes [set_mark]
    raise its [AssertionError], and the record is the one it was: the
    mark is not stored. *)
Theorem set_mark_out_of_range (s : Student) (subject : string) (m : float) :
  (m <? 0) = true \/ (100 <? m) = true \/ PrimFloat.is_nan m = true ->
  set_mark s subject m
  = (s, Raise (AssertionError "Mark must be between 0 and 100."))
  /\ marks (fst (set_mark s subject m)) = marks s.
Proof.
  intros H. unfold set_mark, PyFloat.between.
  assert (E : (0 <=? m) && (m <=? 100) = false).
  { destruct H as [H|[H|H]].
    - rewrite (FloatFacts.ltb_leb_false _ _ H). reflexivity.
    - rewrite (FloatFacts.ltb_leb_false _ _ H). apply andb_false_r.
    - rewrite (is_nan_leb_false _ _ H). reflexivity. }
  rewrite E. split; reflexivity.
Qed.

Lemma set_mark_out_of_range_witness :
  (100 <? 100.5) = true
  /\ set_mark (Student_init "Amy" 101 None) " Math " 100.5
     = (Student_init "Amy" 101 None,
        Raise (AssertionError "Mark must be between 0 and 100."))
  /\ marks (fst (set_mark (Student_init "Amy" 101 None) " Math " 100.5)) = [].
Proof.
  split; [reflexivity|].
  apply (set_mark_out_of_range (Student_init "Amy" 101 None) " Math " 100.5).
  right; left; reflexivity.
Defined.

Lemma get_average_cases (s : Student) :
  get_average s
  = if has_marks s then Some (mean (Dict.values (marks s))) else None.
Proof.
  unfold get_average, has_marks, mean, Dict.len, Dict.values.
  destruct (marks s); [reflexivity|]. now rewrite length_map.
Qed.

(** C7. A mark in [0, 100] is stored under the stripped subject, where
    a read finds exactly that mark; the other subjects, the name and
    the roll stay. The average of a record is the mean of its stored
    marks, the one just set included, and there is none when no mark
    is stored. *)
Theorem set_mark_in_range (s : Student) (subject : string) (m : float) :
  valid_mark m ->
  snd (set_mark s subject m) = Ok tt
  /\ Dict.get String.eqb (PyStr.strip subject)
       (marks (fst (set_mark s subject m))) = Some m
  /\ (forall k, k <> PyStr.strip subject ->
      Dict.get String.eqb k (marks (fst (set_mark s subject m)))
      = Dict.get String.eqb k (marks s))
  /\ name (fst (set_mark s subject m)) = name s
  /\ roll (fst (set_mark s subject m)) = roll s
  /\ get_average (fst (set_mark s subject m))
     = Some (mean (Dict.values (marks (fst (set_mark s subject m)))))
  /\ (forall t : Student,
      (marks t = [] -> get_average t = None)
      /\ (marks t <> [] ->
          get_average t = Some (mean (Dict.values (marks t))))).
Proof.
  unfold valid_mark. intros H. unfold set_mark. rewrite H.
  cbn [fst snd marks name roll].
  repeat split.
  - apply (DictFacts.get_set_same String.eqb String.eqb_eq).
  - intros k Hk. now apply (DictFacts.get_set_other String.eqb String.eqb_eq).
  - rewrite get_average_cases. unfold has_marks. cbn [marks].
    destruct (marks s) as [|[k v] d]; cbn [Dict.set]; [reflexivity|].
    destruct (String.eqb _ k); reflexivity.
  - intros E. rewrite get_average_cases. unfold has_marks. now rewrite E.
  - intros E. rewrite get_average_cases. unfold has_marks.
    destruct (marks t); [contradiction|reflexivity].
Qed.

Lemma set_mark_in_range_witness :
  valid_mark 78.5
  /\ Dict.get String.eqb "Physics"
       (marks (fst (set_mark (Student_init "Amy" 101 (Some [("Math", 85)]))
                      " Physics " 78.5))) = Some 78.5
  /\ get_average (fst (set_mark (Student_init "Amy" 101 (Some [("Math", 85)]))
                         " Physics " 78.5)) = Some 81.75.
Proof.
  split; [reflexivity|].
  pose proof (set_mark_in_range (Student_init "Amy" 101 (Some [("Math", 85)]))
                " Physics " 78.5 eq_refl) as (_ & H1 & _ & _ & _ & H2 & _).
  split; [exact H1|exact H2].
Defined.

End StudentProperties.

(* ================================================================= *)
(** ** class Gradebook: the record store *)

Section StoreProperties.

Lemma mem_get_student gb r :
  Dict.mem Z.eqb r (students gb)
  = match get_student gb r with Some _ => true | None => false end.
Proof. reflexivity. Qed.

Lemma add_student_present gb s old :
  get_student gb (roll s) = Some old ->
  add_student gb s = (gb, Raise (ValueError (roll_exists (roll s)))).
Proof.
  intros H. unfold add_student. rewrite mem_get_student, H. reflexivity.
Qed.

Lemma add_student_absent gb s :
  get_student gb (roll s) = None ->
  add_student gb s
  = ({| students := (students gb ++ [(roll s, s)])%list |}, Ok tt).
Proof.
  intros H. unfold add_student. rewrite mem_get_student, H.
  rewrite (DictFacts.set_fresh Z.eqb); [reflexivity|].
  rewrite mem_get_student, H. reflexivity.
Qed.

(** C3. [add_student] with a roll that is taken raises [ValueError]
    and leaves the gradebook as it was; with a free roll it stores the
    record under that roll, after the records already there, which
    stay as they were. A second record with the same roll is then
    refused. *)
Theorem add_student_unique_roll (gb : Gradebook) (s : Student) :
  (forall old, get_student gb (roll s) = Some old ->
     add_student gb s = (gb, Raise (ValueError (roll_exists (roll s)))))
  /\ (get_student gb (roll s) = None ->
      snd (add_student gb s) = Ok tt
      /\ students (fst (add_student gb s))
         = (students gb ++ [(roll s, s)])%list
      /\ get_student (fst (add_student gb s)) (roll s) = Some s
      /\ (forall r, r <> roll s ->
          get_student (fst (add_student gb s)) r = get_student gb r)
      /\ (forall s2, roll s2 = roll s ->
          add_student (fst (add_student gb s)) s2
          = (fst (add_student gb s),
             Raise (ValueError (roll_exists (roll s)))))).
Proof.
  split; [intros old; apply add_student_present|].
  intros H.
  assert (G : get_student (fst (add_student gb s)) (roll s) = Some s).
  { unfold add_student. rewrite mem_get_student, H. cbn [fst students].
    apply (DictFacts.get_set_same Z.eqb Z.eqb_eq). }
  rewrite (add_student_absent gb s H) in *. cbn [fst snd students] in *.
  repeat split; [exact G| |].
  - intros r Hr. unfold get_student. cbn [students].
    rewrite <- (DictFacts.set_fresh Z.eqb)
      by (rewrite mem_get_student, H; reflexivity).
    now apply (DictFacts.get_set_other Z.eqb Z.eqb_eq).
  - intros s2 E. rewrite <- E. apply add_student_present with (old := s).
    rewrite E. exact G.
Qed.

Lemma add_student_unique_roll_witness :
  add_student sample_data (Student_init "Dev" 102 None)
  = (sample_data, Raise (ValueError "Roll 102 already exists."))
  /\ get_student (fst (add_student sample_data (Student_init "Dev" 104 None)))
       104 = Some (Student_init "Dev" 104 None).
Proof.
  split.
  - apply (proj1 (add_student_unique_roll sample_data
                    (Student_init "Dev" 102 None))
             (Student_init "Bala Rao" 102
                (Some [("Math", 65); ("Physics", 70)])%float)).
    reflexivity.
  - apply (proj2 (add_student_unique_roll sample_data
                    (Student_init "Dev" 104 None))).
    reflexivity.
Defined.

(** C10. A query that is empty once stripped, the empty string among
    them, finds every record: the empty string occurs in every name. *)
Theorem search_by_name_blank (gb : Gradebook) (q : string) :
  PyStr.strip q = "" ->
  search_by_name gb q = Dict.values (students gb).
Proof.
  intros H. unfold search_by_name. rewrite H. cbn [PyStr.lower].
  induction (Dict.values (students gb)) as [|s l IH]; cbn [filter];
    [reflexivity|].
  rewrite StrFacts.contains_empty, IH. reflexivity.
Qed.

Lemma search_by_name_blank_witness :
  search_by_name sample_data "" = Dict.values (students sample_data)
  /\ search_by_name sample_data "   " = Dict.values (students sample_data).
Proof.
  split; apply search_by_name_blank; reflexivity.
Defined.

End StoreProperties.

(* ================================================================= *)
(** ** Statistics *)

Section StatisticsProperties.

Local Open Scope float_scope.

Lemma has_marks_average s :
  has_marks s = true ->
  get_average s = Some (mean (Dict.values (marks s))).
Proof. intros H. rewrite get_average_cases, H. reflexivity. Qed.

Lemma averages_with_marks l :
  flat_map (fun s => match get_average s with
                     | Some a => [a]
                     | None => []
                     end) l
  = map (fun s => mean (Dict.values (marks s))) (filter has_marks l).
Proof.
  induction l as [|s l IH]; cbn [flat_map filter]; [reflexivity|].
  rewrite get_average_cases. destruct (has_marks s); cbn [app map];
    now rewrite IH.
Qed.

(** C5. [class_average] is the mean of the averages of the records
    that have a mark, each average being the mean of that record's
    marks; the records without marks are left out, and there is no
    class average when every record is without marks. *)
Theorem class_average_mean_of_marked (gb : Gradebook) :
  class_average gb
  = match filter has_marks (Dict.values (students gb)) with
    | [] => None
    | marked =>
        Some (mean (map (fun s => mean (Dict.values (marks s))) marked))
    end
  /\ (forall s, In s (filter has_marks (Dict.values (students gb))) ->
      get_average s = Some (mean (Dict.values (marks s))))
  /\ (forall s, In s (Dict.values (students gb)) ->
      has_marks s = false -> get_average s = None).
Proof.
  split; [|split].
  - unfold class_average. rewrite averages_with_marks.
    destruct (filter has_marks (Dict.values (students gb))); reflexivity.
  - intros s Hs. apply filter_In in Hs. now apply has_marks_average.
  - intros s _ H. rewrite get_average_cases, H. reflexivity.
Qed.

End StatisticsProperties.

(* ================================================================= *)
(** ** The invariant of a session *)

Section Invariant.

Lemma inv_init : Gradebook_inv Gradebook_init.
Proof. split; constructor. Qed.

Lemma inv_set gb r s :
  Gradebook_inv gb -> roll s = r -> stripped (name s) ->
  Gradebook_inv {| students := Dict.set Z.eqb r s (students gb) |}.
Proof.
  intros [W F] Hr Hn. split; cbn [students].
  - now apply (DictFacts.set_wf Z.eqb Z.eqb_eq).
  - apply (DictFacts.set_Forall Z.eqb Z.eqb_eq); [assumption|].
    cbn [fst snd]. now split.
Qed.

(** A record found under a roll carries that roll and a stripped
    name. *)
Lemma inv_get gb r s :
  Gradebook_inv gb -> get_student gb r = Some s ->
  roll s = r /\ stripped (name s).
Proof.
  intros [_ F] H. apply (DictFacts.get_In Z.eqb Z.eqb_eq) in H.
  rewrite Forall_forall in F. exact (F _ H).
Qed.

Lemma inv_add gb s :
  Gradebook_inv gb -> stripped (name s) ->
  Gradebook_inv (fst (add_student gb s)).
Proof.
  intros H Hn. unfold add_student.
  destruct (Dict.mem Z.eqb (roll s) (students gb)); cbn [fst];
    [assumption|]. now apply inv_set.
Qed.

Lemma inv_delete gb r :
  Gradebook_inv gb -> Gradebook_inv (fst (delete_student gb r)).
Proof.
  intros [W F]. unfold delete_student.
  pose proof (DictFacts.pop_wf Z.eqb r (students gb) W) as W'.
  pose proof (DictFacts.pop_Forall Z.eqb _ r (students gb) F) as F'.
  destruct (Dict.pop Z.eqb r (students gb)) as [d o].
  cbn [fst] in *. split; assumption.
Qed.

Lemma inv_rename gb r n :
  Gradebook_inv gb -> Gradebook_inv (fst (edit_student_name gb r n)).
Proof.
  intros H. unfold edit_student_name.
  destruct (get_student gb r) as [[n0 r0 m0]|] eqn:E; cbn [fst];
    [|assumption].
  apply inv_set; cbn [roll name]; [assumption| |apply StrFacts.strip_stripped].
  apply (inv_get gb r _ H E).
Qed.

Lemma from_dict_stripped d s : from_dict d = Ok s -> stripped (name s).
Proof.
  unfold from_dict. destruct (d_name d); [|discriminate].
  destruct (d_roll d); [|discriminate].
  intros [= <-]. apply StrFacts.strip_stripped.
Qed.

Lemma inv_load_items data : forall gb n,
  Gradebook_inv gb -> Gradebook_inv (fst (load_items data gb n)).
Proof.
  induction data as [|item data IH]; intros gb n H; cbn [load_items fst];
    [assumption|].
  destruct (from_dict item) as [s|e] eqn:E; cbn [fst]; [|assumption].
  apply IH, inv_set; [assumption|reflexivity|].
  now apply from_dict_stripped with (d := item).
Qed.

Lemma inv_update_held gb r s s' :
  Gradebook_inv gb -> get_student gb r = Some s ->
  roll s' = roll s -> name s' = name s ->
  Gradebook_inv (update_held gb r s').
Proof.
  intros H E Hr Hn. destruct (inv_get gb r s H E) as [R N].
  apply inv_set; [assumption|congruence|]. unfold stripped. now rewrite Hn.
Qed.

(** Every gradebook of a session satisfies the invariant. *)
Lemma reachable_inv gb : reachable gb -> Gradebook_inv gb.
Proof.
  induction 1 as [|gb n r m _ IH|gb r _ IH|gb r n _ IH|gb data _ IH
                  |gb r s subject mark _ IH E|gb r s subject _ IH E].
  - apply inv_init.
  - apply inv_add; [assumption|apply StrFacts.strip_stripped].
  - now apply inv_delete.
  - now apply inv_rename.
  - now apply inv_load_items.
  - apply inv_update_held with (s := s); try assumption;
      unfold set_mark; destruct (PyFloat.between _ _ _); reflexivity.
  - apply inv_update_held with (s := s); try assumption; reflexivity.
Qed.

(** C9, as the code has it. The names a gradebook holds are stored
    stripped: [Student.__init__] and [edit_student_name] strip the
    name they are given, and stripping a held name again changes
    nothing. Neither of them rejects a name that strips to the empty
    string. *)
Theorem held_names_stripped (gb : Gradebook) :
  reachable gb ->
  (forall r s, get_student gb r = Some s -> stripped (name s))
  /\ (forall n r m, name (Student_init n r m) = PyStr.strip n)
  /\ (forall r n s, get_student gb r = Some s ->
      get_student (fst (edit_student_name gb r n)) r
      = Some {| name := PyStr.strip n; roll := roll s; marks := marks s |}).
Proof.
  intros H. apply reachable_inv in H. repeat split.
  - intros r s E. apply (inv_get gb r s H E).
  - intros r n s E. unfold edit_student_name. rewrite E.
    destruct s as [n0 r0 m0]. cbn [fst roll marks].
    apply (DictFacts.get_set_same Z.eqb Z.eqb_eq).
Qed.

Lemma held_names_stripped_witness :
  reachable (fst (add_student Gradebook_init (Student_init "  Amy " 101 None)))
  /\ stripped "Amy".
Proof.
  assert (R : reachable
            (fst (add_student Gradebook_init (Student_init "  Amy " 101 None))))
    by (apply reach_add, reach_init).
  split; [exact R|].
  exact (proj1 (held_names_stripped _ R) 101
           (Student_init "  Amy " 101 None) eq_refl).
Defined.

(** C9 as stated fails: a name of blanks is accepted by the
    constructor and by [edit_student_name], and the gradebook then
    holds a record whose name is empty. *)
Lemma empty_name_held :
  reachable (fst (add_student Gradebook_init (Student_init "   " 7 None)))
  /\ option_map name
       (get_student
          (fst (add_student Gradebook_init (Student_init "   " 7 None))) 7)
     = Some ""
  /\ reachable (fst (edit_student_name sample_data 102 "  "))
  /\ option_map (fun s => PyStr.strip (name s))
       (get_student (fst (edit_student_name sample_data 102 "  ")) 102)
     = Some "".
Proof.
  repeat split.
  - apply reach_add, reach_init.
  - apply reach_rename.
    apply (reach_add _ "Chitra Sen" 103
             (Some [("Math", 92); ("English", 88); ("Biology", 85)])%float).
    apply (reach_add _ "Bala Rao" 102
             (Some [("Math", 65); ("Physics", 70)])%float).
    apply (reach_add _ "Aman Koli" 101
             (Some [("Math", 85); ("Physics", 78); ("Chemistry", 90)])%float).
    apply reach_init.
Qed.

End Invariant.

(* ================================================================= *)
(** ** The snapshot codec *)

Section Snapshot.

Lemma from_dict_to_dict s : stripped (name s) -> from_dict (to_dict s) = Ok s.
Proof.
  destruct s as [n r m]. unfold stripped, from_dict, to_dict, Student_init.
  cbn. intros ->. destruct m; reflexivity.
Qed.

Lemma load_items_saved l : forall gb n,
  Forall (fun s => stripped (name s)) l ->
  load_items (map to_dict l) gb n
  = ({| students :=
          fold_left (fun d s => Dict.set Z.eqb (roll s) s d) l (students gb) |},
     Ok (n + List.length l)%nat).
Proof.
  induction l as [|s l IH]; intros gb n H; cbn [map load_items fold_left].
  - destruct gb. cbn. now rewrite Nat.add_0_r.
  - inversion H as [|? ? Hs Hl]; subst.
    rewrite from_dict_to_dict by assumption.
    rewrite IH by assumption. cbn [students List.length].
    now rewrite Nat.add_succ_r.
Qed.

(** Records with distinct new rolls are appended in the order in which
    they are stored. *)
Lemma store_fresh l : forall d : Dict.t Z Student,
  NoDup (map roll l) ->
  (forall s, In s l -> ~ In (roll s) (Dict.keys d)) ->
  fold_left (fun d s => Dict.set Z.eqb (roll s) s d) l d
  = (d ++ map entry l)%list.
Proof.
  induction l as [|x l IH]; intros d N F; cbn [fold_left map].
  - now rewrite app_nil_r.
  - inversion N as [|? ? Nx Nl]; subst.
    rewrite (DictFacts.set_fresh Z.eqb).
    + rewrite IH; [now rewrite <- app_assoc|assumption|].
      intros s Hs. unfold Dict.keys. rewrite map_app, in_app_iff.
      cbn [map fst In]. intros [H|[H|[]]].
      * apply (F s); [now right|exact H].
      * apply Nx. rewrite H. now apply in_map.
    + destruct (Dict.mem Z.eqb (roll x) d) eqn:E; [|reflexivity].
      apply (DictFacts.mem_In Z.eqb Z.eqb_eq) in E.
      exfalso. apply (F x); [now left|exact E].
Qed.

Lemma inv_entries gb :
  Gradebook_inv gb ->
  students gb = map entry (Dict.values (students gb)).
Proof.
  intros [_ F]. unfold Dict.values. induction F as [|[k s] d [Hk _] _ IH];
    cbn [map snd]; [reflexivity|].
  cbn [fst snd] in Hk. unfold entry at 1. rewrite Hk. now f_equal.
Qed.

Lemma keys_entries l : Dict.keys (map entry l) = map roll l.
Proof. unfold Dict.keys. rewrite map_map. reflexivity. Qed.

Lemma list_all_Permutation gb :
  Permutation (list_all gb) (Dict.values (students gb)).
Proof. apply SortFacts.sorted_Permutation. Qed.

(** C1. Loading what [save_to_json] wrote into a new gradebook stores
    every record again: the loaded gradebook answers every roll with
    the record the saved one holds, name, roll and marks alike, and so
    has the same rolls; its records stand in ascending order of roll.
    The count it reports is the number of records. *)
Theorem load_save_roundtrip (gb : Gradebook) :
  Gradebook_inv gb ->
  snd (load_from_json Gradebook_init (save_to_json gb))
  = Ok (Dict.len (students gb))
  /\ same_records (fst (load_from_json Gradebook_init (save_to_json gb))) gb
  /\ Permutation
       (Dict.keys (students
          (fst (load_from_json Gradebook_init (save_to_json gb)))))
       (Dict.keys (students gb))
  /\ students (fst (load_from_json Gradebook_init (save_to_json gb)))
     = map entry (list_all gb).
Proof.
  intros H. pose proof H as [W F].
  pose proof (inv_entries gb H) as E.
  pose proof (list_all_Permutation gb) as P.
  assert (S : Forall (fun s => stripped (name s)) (list_all gb)).
  { apply Forall_forall. intros s Hs.
    apply (Permutation_in _ P) in Hs.
    unfold Dict.values in Hs. apply in_map_iff in Hs as (kv & <- & Hkv).
    rewrite Forall_forall in F. apply (F kv Hkv). }
  assert (N : NoDup (map roll (list_all gb))).
  { apply Permutation_NoDup with (l := map roll (Dict.values (students gb))).
    - apply Permutation_map. now symmetry.
    - rewrite <- keys_entries, <- E. exact W. }
  unfold load_from_json, save_to_json.
  rewrite load_items_saved by assumption. cbn [fst snd students].
  change (students Gradebook_init) with (@nil (Z * Student)).
  rewrite store_fresh by (cbn; auto). cbn [app].
  assert (PE : Permutation (map entry (list_all gb)) (students gb)).
  { rewrite E. now apply Permutation_map. }
  repeat split.
  - f_equal. cbn [Nat.add]. rewrite (Permutation_length P).
    unfold Dict.values, Dict.len. apply length_map.
  - intros r. unfold get_student. cbn [students].
    apply (DictFacts.get_Permutation Z.eqb Z.eqb_eq); [|assumption].
    unfold Dict.wf. now rewrite keys_entries.
  - unfold Dict.keys. now apply Permutation_map.
Qed.

Lemma load_save_roundtrip_witness :
  Gradebook_inv sample_data
  /\ same_records
       (fst (load_from_json Gradebook_init (save_to_json sample_data)))
       sample_data.
Proof.
  assert (I : Gradebook_inv sample_data).
  { split.
    - repeat constructor; cbn; intuition discriminate.
    - repeat constructor. }
  split; [exact I|]. exact (proj1 (proj2 (load_save_roundtrip sample_data I))).
Defined.

(** X18. Loading the snapshot of a gradebook back into that gradebook
    leaves it as it is. *)
Lemma load_save_in_place gb :
  Gradebook_inv gb ->
  load_from_json gb (save_to_json gb) = (gb, Ok (Dict.len (students gb))).
Proof.
  intros H. pose proof H as [W F].
  pose proof (list_all_Permutation gb) as P.
  assert (G : Forall (fun s => stripped (name s)
                            /\ Dict.get Z.eqb (roll s) (students gb) = Some s)
                (list_all gb)).
  { apply Forall_forall. intros s Hs. apply (Permutation_in _ P) in Hs.
    unfold Dict.values in Hs. apply in_map_iff in Hs as ([k t] & E & Hkt).
    cbn [snd] in E. subst t. rewrite Forall_forall in F.
    destruct (F _ Hkt) as [Hr Hn]. cbn [fst snd] in Hr, Hn.
    split; [assumption|]. rewrite Hr.
    now apply (DictFacts.In_get Z.eqb Z.eqb_eq). }
  unfold load_from_json, save_to_json. rewrite load_items_saved.
  - f_equal.
    + destruct gb as [d]. cbn [students] in *. f_equal.
      clear P H W F. induction G as [|s l [_ Hs] _ IH]; [reflexivity|].
      cbn [fold_left]. now rewrite (DictFacts.set_same Z.eqb).
    + f_equal. cbn [Nat.add]. rewrite (Permutation_length P).
      unfold Dict.values, Dict.len. apply length_map.
  - revert G. apply Forall_impl. tauto.
Qed.

End Snapshot.

(* ================================================================= *)
(** ** Averages of valid records *)

Section ValidAverages.

Local Open Scope float_scope.

Lemma valid_mark_nonneg m : valid_mark m -> nonneg (Prim2SF m) = true.
Proof.
  unfold valid_mark, PyFloat.between. intros H.
  apply andb_true_iff in H as [H _]. now apply FloatFacts.leb_zero_nonneg.
Qed.

(** The average of marks in [0, 100] is a number that is not
    negative. *)
Lemma valid_average_nonneg s a :
  valid_student s -> get_average s = Some a -> nonneg (Prim2SF a) = true.
Proof.
  intros [F B]. unfold get_average.
  assert (N : Forall (fun x => nonneg (Prim2SF x) = true)
                (Dict.values (marks s))).
  { unfold Dict.values. rewrite Forall_map. revert F. apply Forall_impl.
    intros x. apply valid_mark_nonneg. }
  destruct (marks s) as [|kv d] eqn:E; [discriminate|]. intros [= <-].
  apply FloatFacts.div_nonneg.
  - now apply FloatFacts.sum_nonneg.
  - cbn. lia.
  - exact B.
Qed.

Lemma valid_averages_defined gb :
  valid_gradebook gb -> averages_defined (Dict.values (students gb)).
Proof.
  unfold valid_gradebook, averages_defined. apply Forall_impl.
  intros s V a E. apply FloatFacts.nonneg_not_nan.
  now apply valid_average_nonneg with (s := s).
Qed.

(** X2. [set_mark] keeps the marks of a record in range: it is the one
    place where the class stores a mark, and it stores none out of
    range. *)
Lemma set_mark_valid s subject m :
  valid_student s -> Z.of_nat (Dict.len (marks s)) < sys_maxsize ->
  valid_student (fst (set_mark s subject m)).
Proof.
  intros [F B] L. unfold set_mark.
  destruct (PyFloat.between 0 m 100) eqn:E; cbn [fst]; [|now split].
  split; cbn [marks].
  - now apply (DictFacts.set_Forall String.eqb String.eqb_eq).
  - unfold Dict.len in *.
    destruct (Dict.mem String.eqb (PyStr.strip subject) (marks s)) eqn:M.
    + apply (DictFacts.set_keys_mem String.eqb) with (v := m) in M.
      apply (f_equal (@List.length string)) in M. unfold Dict.keys in M.
      rewrite !length_map in M. now rewrite M.
    + rewrite (DictFacts.set_fresh String.eqb) by assumption.
      rewrite length_app. cbn [List.length]. lia.
Qed.

End ValidAverages.

(* ================================================================= *)
(** ** Grade distribution *)

Section Grades.

Local Open Scope float_scope.

Lemma grade_of_cases s :
  grade_of s = "A" \/ grade_of s = "B" \/ grade_of s = "C"
  \/ grade_of s = "D" \/ grade_of s = "F".
Proof.
  unfold grade_of. destruct (get_average s) as [a|]; [|auto 10].
  destruct (80 <=? a), (60 <=? a), (50 <=? a), (40 <=? a); auto 10.
Qed.

Lemma grade_of_In s : In (grade_of s) grades.
Proof.
  destruct (grade_of_cases s) as [E|[E|[E|[E|E]]]]; rewrite E; cbn; auto 10.
Qed.

(** The branches cover the records, one branch each. *)
Lemma count_grade_total l :
  (count_grade "A" l + count_grade "B" l + count_grade "C" l
   + count_grade "D" l + count_grade "F" l)%nat = List.length l.
Proof.
  unfold count_grade. induction l as [|s l IH]; [reflexivity|].
  cbn [filter List.length].
  destruct (grade_of_cases s) as [E|[E|[E|[E|E]]]]; rewrite E;
    cbn [String.eqb Ascii.eqb Bool.eqb andb List.length]; lia.
Qed.

Lemma bump_get k g (d : Dict.t string nat) :
  Dict.get String.eqb k d <> None ->
  Dict.get String.eqb g (bump k d)
  = if String.eqb g k then option_map S (Dict.get String.eqb g d)
    else Dict.get String.eqb g d.
Proof.
  intros H. unfold bump.
  destruct (Dict.get String.eqb k d) as [c|] eqn:E; [|contradiction].
  destruct (String.eqb g k) eqn:G.
  - apply String.eqb_eq in G. subst g. rewrite E. cbn [option_map].
    rewrite Nat.add_1_r.
    apply (DictFacts.get_set_same String.eqb String.eqb_eq).
  - apply String.eqb_neq in G.
    now apply (DictFacts.get_set_other String.eqb String.eqb_eq).
Qed.

Lemma bump_keys k (d : Dict.t string nat) :
  Dict.keys (bump k d) = Dict.keys d.
Proof.
  unfold bump. destruct (Dict.get String.eqb k d) as [c|] eqn:E;
    [|reflexivity].
  apply DictFacts.set_keys_mem. unfold Dict.mem. now rewrite E.
Qed.

(** The loop of [grade_distribution], from any dictionary that has the
    five grades. *)
Lemma count_loop l : forall d : Dict.t string nat,
  (forall g, In g grades -> Dict.get String.eqb g d <> None) ->
  Dict.keys (fold_left (fun b s => bump (grade_of s) b) l d) = Dict.keys d
  /\ forall g, In g grades ->
     Dict.get String.eqb g (fold_left (fun b s => bump (grade_of s) b) l d)
     = option_map (fun c => (c + count_grade g l)%nat)
         (Dict.get String.eqb g d).
Proof.
  induction l as [|s l IH]; intros d H; cbn [fold_left].
  - split; [reflexivity|]. intros g _. unfold count_grade. cbn.
    destruct (Dict.get String.eqb g d); cbn; [f_equal; lia|reflexivity].
  - assert (H' : forall g, In g grades ->
                 Dict.get String.eqb g (bump (grade_of s) d) <> None).
    { intros g Hg. rewrite bump_get by apply H, grade_of_In.
      specialize (H g Hg).
      destruct (String.eqb g (grade_of s)),
        (Dict.get String.eqb g d); cbn; congruence. }
    destruct (IH _ H') as [K G]. split.
    + rewrite K. apply bump_keys.
    + intros g Hg. rewrite (G g Hg), bump_get by apply H, grade_of_In.
      unfold count_grade. cbn [filter]. rewrite (String.eqb_sym (grade_of s) g).
      specialize (H g Hg).
      destruct (String.eqb g (grade_of s)),
        (Dict.get String.eqb g d); cbn; try congruence; f_equal; lia.
Qed.

Lemma grade_distribution_counts gb :
  Dict.keys (grade_distribution gb) = grades
  /\ forall g, In g grades ->
     Dict.get String.eqb g (grade_distribution gb)
     = Some (count_grade g (Dict.values (students gb))).
Proof.
  unfold grade_distribution.
  destruct (count_loop (Dict.values (students gb))
              [("A", 0%nat); ("B", 0%nat); ("C", 0%nat); ("D", 0%nat);
               ("F", 0%nat)]) as [K G].
  - intros g Hg. cbn in Hg.
    destruct Hg as [<-|[<-|[<-|[<-|[<-|[]]]]]]; cbn; discriminate.
  - split; [exact K|]. intros g Hg. rewrite (G g Hg). cbn in Hg.
    destruct Hg as [<-|[<-|[<-|[<-|[<-|[]]]]]]; reflexivity.
Qed.

(** On an average that is a number, the branch taken is the bucket of
    the table. *)
Lemma in_bucket_grade_of s g :
  (forall a, get_average s = Some a -> not_nan a) ->
  In g grades ->
  in_bucket g (get_average s) = String.eqb (grade_of s) g.
Proof.
  intros N Hg. unfold grade_of, in_bucket.
  destruct (get_average s) as [a|]; [|apply String.eqb_sym].
  specialize (N a eq_refl).
  assert (T : forall t, not_nan t -> (a <? t) = negb (t <=? a)).
  { intros t Ht. destruct (t <=? a) eqn:E; cbn [negb].
    - now apply FloatFacts.leb_ltb_false.
    - now apply FloatFacts.not_leb_ltb. }
  assert (M : forall t u, (t <=? u) = true -> (u <=? a) = true ->
                          (t <=? a) = true)
    by (intros t u; apply FloatFacts.leb_trans).
  rewrite !T by (unfold not_nan; cbn; discriminate).
  pose proof (M 60 80 eq_refl) as M1. pose proof (M 50 60 eq_refl) as M2.
  pose proof (M 40 50 eq_refl) as M3.
  cbn in Hg.
  destruct (80 <=? a), (60 <=? a), (50 <=? a), (40 <=? a);
    try (specialize (M1 eq_refl); discriminate);
    try (specialize (M2 eq_refl); discriminate);
    try (specialize (M3 eq_refl); discriminate);
    destruct Hg as [<-|[<-|[<-|[<-|[<-|[]]]]]]; reflexivity.
Qed.

Lemma bucket_size_count g l :
  averages_defined l -> In g grades -> bucket_size g l = count_grade g l.
Proof.
  unfold averages_defined, bucket_size, count_grade. intros F Hg.
  induction F as [|s l Hs _ IH]; [reflexivity|]. cbn [filter].
  rewrite (in_bucket_grade_of s g Hs Hg).
  destruct (String.eqb (grade_of s) g); cbn [List.length]; now rewrite IH.
Qed.

(** C4. [grade_distribution] returns a count for each of the five
    grades, none for an empty gradebook, and the counts add up to the
    number of records. On records whose marks are in range, so that
    every average is a number ([valid_averages_defined]), the count
    of a grade is the number of records in the bucket the table gives
    for that grade, and every record is in exactly one bucket. *)
Theorem grade_distribution_buckets (gb : Gradebook) :
  Dict.keys (grade_distribution gb) = grades
  /\ list_sum (Dict.values (grade_distribution gb))
     = Dict.len (students gb)
  /\ (students gb = [] ->
      grade_distribution gb
      = [("A", 0); ("B", 0); ("C", 0); ("D", 0); ("F", 0)]%nat)
  /\ (valid_gradebook gb ->
      (forall g, In g grades ->
       Dict.get String.eqb g (grade_distribution gb)
       = Some (bucket_size g (Dict.values (students gb))))
      /\ (forall s, In s (Dict.values (students gb)) ->
          exists g, In g grades
            /\ in_bucket g (get_average s) = true
            /\ forall g', In g' grades ->
               in_bucket g' (get_average s) = true -> g' = g)).
Proof.
  destruct (grade_distribution_counts gb) as [K G].
  split; [exact K|]. split; [|split].
  - pose proof (count_grade_total (Dict.values (students gb))) as T.
    unfold Dict.len. unfold Dict.values at 6 in T. rewrite length_map in T.
    rewrite <- T. clear T.
    pose proof (G "A") as GA. pose proof (G "B") as GB.
    pose proof (G "C") as GC. pose proof (G "D") as GD.
    pose proof (G "F") as GF. clear G. unfold grades in *.
    destruct (grade_distribution gb) as [|[k1 v1] [|[k2 v2] [|[k3 v3]
      [|[k4 v4] [|[k5 v5] [|]]]]]]; try discriminate.
    injection K as -> -> -> -> ->. cbn in *.
    injection (GA ltac:(tauto)) as ->. injection (GB ltac:(tauto)) as ->.
    injection (GC ltac:(tauto)) as ->. injection (GD ltac:(tauto)) as ->.
    injection (GF ltac:(tauto)) as ->. lia.
  - unfold grade_distribution. intros ->. reflexivity.
  - intros V. apply valid_averages_defined in V. split.
    + intros g Hg. rewrite (G g Hg). f_equal. symmetry.
      now apply bucket_size_count.
    + intros s Hs. unfold averages_defined in V. rewrite Forall_forall in V.
      specialize (V s Hs). exists (grade_of s).
      split; [apply grade_of_In|]. split.
      * rewrite in_bucket_grade_of by auto using grade_of_In.
        apply String.eqb_refl.
      * intros g' Hg' B. rewrite in_bucket_grade_of in B by assumption.
        apply String.eqb_eq in B. now symmetry.
Qed.

Lemma grade_distribution_buckets_witness :
  valid_gradebook sample_data
  /\ Dict.get String.eqb "A" (grade_distribution sample_data) = Some 2%nat
  /\ bucket_size "F" (Dict.values (students sample_data)) = 0%nat.
Proof.
  assert (V : valid_gradebook sample_data).
  { repeat constructor; discriminate. }
  split; [exact V|].
  destruct (grade_distribution_buckets sample_data) as (_ & _ & _ & G).
  destruct (G V) as [G' _]. clear G. rename G' into G.
  split.
  - rewrite (G "A") by (cbn; tauto). reflexivity.
  - reflexivity.
Defined.

End Grades.

(* ================================================================= *)
(** ** Ranking *)

Section Ranking.

Local Open Scope float_scope.

Lemma score_without_marks s : has_marks s = false -> score s = 0.
Proof.
  intros H. unfold score. rewrite get_average_cases, H. reflexivity.
Qed.

(** The score of a record with marks equals its average; an average
    of zero of either sign is scored as [0.0]. *)
Lemma score_with_marks s a :
  get_average s = Some a -> not_nan a ->
  PyFloat.py_eq (score s) a /\ (PyFloat.truthy a = true -> score s = a).
Proof.
  intros E N. unfold score, PyFloat.py_eq, PyFloat.truthy. rewrite E.
  destruct (a =? 0) eqn:Z; cbn [negb].
  - split; [|discriminate]. now rewrite FloatFacts.float_eqb_sym.
  - split; [|reflexivity]. now apply FloatFacts.float_eqb_refl.
Qed.

Lemma score_not_nan s :
  (forall a, get_average s = Some a -> not_nan a) -> not_nan (score s).
Proof.
  intros N. unfold score. destruct (get_average s) as [a|];
    [|unfold not_nan; cbn; discriminate].
  destruct (PyFloat.truthy a); [now apply N|].
  unfold not_nan; cbn; discriminate.
Qed.

(** [sort(reverse=True)] on scores that are numbers: every pair stands
    above the pairs after it. *)
Lemma sorted_reverse_descending (l : list (Student * float)) :
  Forall (fun p => not_nan (snd p)) l ->
  StronglySorted outranks (PySort.sorted_reverse PrimFloat.ltb snd l).
Proof.
  intros N. unfold PySort.sorted_reverse.
  apply SortFacts.StronglySorted_rev
    with (R := fun p q : Student * float => (snd p <=? snd q) = true).
  apply Sorted_StronglySorted.
  - intros x y z. apply FloatFacts.leb_trans.
  - apply SortFacts.Sorted_weaken
      with (R := ordered PrimFloat.ltb snd)
           (P := fun p => not_nan (snd p)).
    + intros p q Np Nq. unfold ordered.
      now apply FloatFacts.not_ltb_leb.
    + apply Forall_forall. intros p Hp. rewrite Forall_forall in N.
      apply N, in_rev.
      exact (Permutation_in _
               (SortFacts.sorted_Permutation PrimFloat.ltb snd (rev l)) Hp).
    + apply SortFacts.sorted_Sorted. apply FloatFacts.ltb_asym.
Qed.

(** C6. [top_n_students] pairs every record with its score, the
    average when the record has marks and [0.0] when it has none, so
    that no record is left out; it ranks the pairs by descending
    score and returns the first [n] of them. The marks are taken to
    be in range, so that every average is a number
    ([valid_averages_defined]): NaN has no place in an order. *)
Theorem top_n_students_ranked (gb : Gradebook) (n : Z) :
  valid_gradebook gb -> 0 <= n ->
  exists ranked : list (Student * float),
    top_n_students gb n = firstn (Z.to_nat n) ranked
    /\ Permutation ranked
         (map (fun s => (s, score s)) (Dict.values (students gb)))
    /\ StronglySorted outranks ranked
    /\ (forall s, In s (Dict.values (students gb)) ->
        (has_marks s = false -> score s = 0)
        /\ (forall a, get_average s = Some a ->
            PyFloat.py_eq (score s) a
            /\ (PyFloat.truthy a = true -> score s = a))).
Proof.
  intros V Hn. apply valid_averages_defined in V.
  unfold averages_defined in V. rewrite Forall_forall in V.
  exists (PySort.sorted_reverse PrimFloat.ltb snd
            (map (fun s => (s, score s)) (Dict.values (students gb)))).
  split; [|split; [|split]].
  - unfold top_n_students. now apply SortFacts.slice_to_firstn.
  - apply SortFacts.sorted_reverse_Permutation.
  - apply sorted_reverse_descending. apply Forall_forall.
    intros p Hp. apply in_map_iff in Hp as (s & <- & Hs). cbn [snd].
    apply score_not_nan, V, Hs.
  - intros s Hs. split; [apply score_without_marks|].
    intros a E. apply score_with_marks; [assumption|]. now apply (V s Hs).
Qed.

Lemma top_n_students_ranked_witness :
  valid_gradebook sample_data /\ 0 <= 2
  /\ map (fun p => roll (fst p)) (top_n_students sample_data 2) = [103; 101]%Z.
Proof.
  assert (V : valid_gradebook sample_data)
    by (repeat constructor; discriminate).
  split; [exact V|]. split; [lia|].
  destruct (top_n_students_ranked sample_data 2 V ltac:(lia))
    as (ranked & E & _).
  rewrite E. rewrite <- E. reflexivity.
Defined.

(** X15. A negative [n] counts from the end of the ranking: the pairs
    returned are the full ranking without its last [- n] pairs. That
    leaves as many pairs as there are records, less [- n]; none are
    left when the gradebook holds at most [- n] records. *)
Lemma top_n_students_negative gb n :
  n < 0 ->
  top_n_students gb n
  = firstn (Z.to_nat (Z.of_nat (Dict.len (students gb)) + n))
      (top_n_students gb (Z.of_nat (Dict.len (students gb))))
  /\ List.length (top_n_students gb n)
     = Z.to_nat (Z.of_nat (Dict.len (students gb)) + n)
  /\ (Z.of_nat (Dict.len (students gb)) <= - n -> top_n_students gb n = []).
Proof.
  intros H. unfold top_n_students, PySort.slice_to.
  set (l := PySort.sorted_reverse _ _ _).
  assert (L : List.length l = Dict.len (students gb)).
  { subst l. rewrite (Permutation_length
      (SortFacts.sorted_reverse_Permutation _ _ _)).
    unfold Dict.values, Dict.len. now rewrite !length_map. }
  rewrite L.
  destruct (n <? 0)%Z eqn:E; [|apply Z.ltb_ge in E; lia].
  destruct (Z.of_nat (Dict.len (students gb)) <? 0)%Z eqn:E2;
    [apply Z.ltb_lt in E2; lia|].
  rewrite Nat2Z.id, <- L, firstn_all. split; [reflexivity|]. split.
  - rewrite length_firstn. lia.
  - intros S.
    replace (Z.to_nat (Z.of_nat (List.length l) + n)) with 0%nat by lia.
    reflexivity.
Qed.

End Ranking.

(* ================================================================= *)
(** ** Two decimals *)

Section TwoDecimals.

(** [div_half_even] picks an integer nearest to the quotient. *)
Lemma div_half_even_nearest n d :
  0 < d -> Z.abs (2 * n - 2 * PyFloat.div_half_even n d * d) <= d.
Proof.
  intros Hd. unfold PyFloat.div_half_even.
  pose proof (Z.div_mod n d ltac:(lia)) as E.
  pose proof (Z.mod_pos_bound n d Hd) as B.
  destruct (Z.compare_spec (2 * (n mod d)) d) as [C|C|C];
    [destruct (Z.even (n / d))| |]; nia.
Qed.

(** Half way between two integers it picks the even one. *)
Lemma div_half_even_tie n d :
  0 < d -> Z.abs (2 * n - 2 * PyFloat.div_half_even n d * d) = d ->
  Z.even (PyFloat.div_half_even n d) = true.
Proof.
  intros Hd. unfold PyFloat.div_half_even.
  pose proof (Z.div_mod n d ltac:(lia)) as E.
  pose proof (Z.mod_pos_bound n d Hd) as B.
  destruct (Z.compare_spec (2 * (n mod d)) d) as [C|C|C].
  - intros _. destruct (Z.even (n / d)) eqn:Q; [exact Q|].
    rewrite Z.add_1_r, Z.even_succ, <- Z.negb_even, Q. reflexivity.
  - intros H. nia.
  - intros H. nia.
Qed.

(** The hundredths that [format_2f] prints are the exact value times
    100, rounded to the nearest integer, ties to even. *)
Lemma hundredths_nearest m e :
  nearest_hundredths m e (PyFloat.hundredths m e).
Proof.
  unfold nearest_hundredths.
  destruct e as [|p|p]; cbn [PyFloat.hundredths Z.opp].
  - change (Z.max 0 0) with 0. rewrite Z.pow_0_r. lia.
  - rewrite Z.max_r, Z.max_l by lia. rewrite Z.pow_0_r. lia.
  - rewrite Z.max_l, Z.max_r by lia. rewrite Z.pow_0_r, Z.mul_1_r.
    assert (Hd : 0 < 2 ^ Zpos p) by (apply Z.pow_pos_nonneg; lia).
    split.
    + now apply div_half_even_nearest.
    + now apply div_half_even_tie.
Qed.

(** There is one such integer. *)
Lemma nearest_hundredths_unique m e h h' :
  nearest_hundredths m e h -> nearest_hundredths m e h' -> h = h'.
Proof.
  unfold nearest_hundredths.
  set (num := Zpos m * 2 ^ Z.max 0 e * 100).
  set (den := 2 ^ Z.max 0 (- e)).
  assert (Hd : 0 < den) by (apply Z.pow_pos_nonneg; lia).
  clearbody num den. intros [B T] [B' T'].
  assert (D : h = h' \/ h = h' + 1 \/ h' = h + 1) by nia.
  destruct D as [D|[D|D]]; [exact D| |]; exfalso.
  - assert (E : Z.even h = true) by (apply T; nia).
    assert (E' : Z.even h' = true) by (apply T'; nia).
    subst h. rewrite Z.add_1_r, Z.even_succ, <- Z.negb_even, E' in E.
    discriminate.
  - assert (E : Z.even h = true) by (apply T; nia).
    assert (E' : Z.even h' = true) by (apply T'; nia).
    subst h'. rewrite Z.add_1_r, Z.even_succ, <- Z.negb_even, E in E'.
    discriminate.
Qed.

(** A float has one text with two decimals. *)
Lemma two_decimals_unique x t t' :
  two_decimals x t -> two_decimals x t' -> t = t'.
Proof.
  unfold two_decimals. destruct (Prim2SF x) as [s|s| |s m e]; try congruence.
  intros (h & N & ->) (h' & N' & ->).
  now rewrite (nearest_hundredths_unique m e h h' N N').
Qed.

Lemma two_digits_shape n :
  0 <= n < 100 ->
  PyFloat.two_digits n
  = String (digit_char (n / 10)) (String (digit_char (n mod 10)) "").
Proof.
  intros H. rewrite <- (Z2Nat.id n) by lia.
  assert (L : (Z.to_nat n < 100)%nat) by lia.
  generalize dependent (Z.to_nat n). clear. intros k L.
  do 100 (destruct k as [|k]; [reflexivity|]). lia.
Qed.

(** [f"{x:.2f}"] writes [x] with two decimals. *)
Lemma format_2f_two_decimals x : two_decimals x (PyFloat.format_2f x).
Proof.
  unfold two_decimals, PyFloat.format_2f.
  destruct (Prim2SF x) as [[|]|[|]| |s m e]; try reflexivity.
  exists (PyFloat.hundredths m e). split; [apply hundredths_nearest|].
  set (h := PyFloat.hundredths m e).
  rewrite two_digits_shape by (apply Z.mod_pos_bound; lia).
  replace (h mod 100 / 10) with (h / 10 mod 10)
    by (Z.div_mod_to_equations; lia).
  replace (h mod 100 mod 10) with (h mod 10)
    by (Z.div_mod_to_equations; lia).
  now destruct s.
Qed.

Example format_2f_ties :
  map PyFloat.format_2f [0.125; 0.375; 84.5; -0; 100]%float
  = ["0.12"; "0.38"; "84.50"; "-0.00"; "100.00"].
Proof. reflexivity. Qed.

End TwoDecimals.

(* ================================================================= *)
(** ** The CSV export *)

Section CsvExport.

(** *** The order of strings *)

Lemma compare_lt_trans a : forall b c,
  String.compare a b = Lt -> String.compare b c = Lt ->
  String.compare a c = Lt.
Proof.
  induction a as [|x a IH]; intros [|y b] [|z c]; cbn; try easy.
  unfold Ascii.compare.
  destruct (N.compare_spec (N_of_ascii x) (N_of_ascii y)) as [E1|L1|G1],
           (N.compare_spec (N_of_ascii y) (N_of_ascii z)) as [E2|L2|G2],
           (N.compare_spec (N_of_ascii x) (N_of_ascii z)) as [E3|L3|G3];
    try easy; try lia.
  apply IH.
Qed.

Lemma string_ltb_trans a b c :
  String.ltb a b = true -> String.ltb b c = true -> String.ltb a c = true.
Proof.
  unfold String.ltb.
  destruct (String.compare a b) eqn:E1; try discriminate.
  destruct (String.compare b c) eqn:E2; try discriminate.
  now rewrite (compare_lt_trans a b c E1 E2).
Qed.

Lemma string_ltb_asym a b : String.ltb a b = true -> String.ltb b a = false.
Proof.
  unfold String.ltb. rewrite (String.compare_antisym b a).
  destruct (String.compare a b); cbn; congruence.
Qed.

Lemma string_ltb_strict a b :
  a <> b -> String.ltb b a = false -> String.ltb a b = true.
Proof.
  unfold String.ltb. intros N. rewrite (String.compare_antisym b a).
  destruct (String.compare a b) eqn:E; cbn; try congruence.
  apply String.compare_eq_iff in E. contradiction.
Qed.

(** Neighbours that are in order and distinct are in strict order. *)
Lemma Sorted_strict {A : Type} (R R' : A -> A -> Prop) l :
  (forall a b, a <> b -> R a b -> R' a b) ->
  NoDup l -> Sorted R l -> Sorted R' l.
Proof.
  intros HR N S. induction S as [|x l Hs IH Hh]; [constructor|].
  inversion N as [|? ? Nx Nl]; subst. constructor; [auto|].
  destruct Hh as [|y l' Hxy]; constructor.
  apply HR; [|assumption]. intros ->. apply Nx. now left.
Qed.

(** *** The set of subjects *)

Lemma set_update_spec ks : forall acc,
  NoDup acc ->
  NoDup (set_update acc ks)
  /\ forall k, In k (set_update acc ks) <-> In k acc \/ In k ks.
Proof.
  unfold set_update.
  induction ks as [|x ks IH]; intros acc N; cbn [fold_left].
  - split; [assumption|]. intros k. cbn. tauto.
  - destruct (existsb (String.eqb x) acc) eqn:E.
    + destruct (IH acc N) as [N' M]. split; [assumption|].
      intros k. rewrite M. cbn [In]. split; [tauto|].
      intros [H|[<-|H]]; auto.
      apply existsb_exists in E as (y & Hy & Exy).
      apply String.eqb_eq in Exy. subst. auto.
    + assert (Nx : ~ In x acc).
      { intros Hx. apply Bool.not_true_iff_false in E. apply E.
        apply existsb_exists. exists x. split; [assumption|].
        apply String.eqb_refl. }
      destruct (IH (acc ++ [x])%list) as [N' M].
      * apply NoDup_app; [assumption|repeat constructor; cbn; tauto|].
        intros a Ha [<-|[]]. contradiction.
      * split; [assumption|]. intros k. rewrite M, in_app_iff.
        cbn [In]. tauto.
Qed.

Lemma collect_subjects_spec l : forall acc,
  NoDup acc ->
  NoDup (fold_left (fun acc s => set_update acc (Dict.keys (marks s))) l acc)
  /\ forall k,
     In k (fold_left (fun acc s => set_update acc (Dict.keys (marks s))) l acc)
     <-> In k acc \/ exists s, In s l /\ In k (Dict.keys (marks s)).
Proof.
  induction l as [|s l IH]; intros acc N; cbn [fold_left].
  - split; [assumption|]. intros k. split; [tauto|].
    intros [H|(s & [] & _)]. assumption.
  - destruct (set_update_spec (Dict.keys (marks s)) acc N) as [N1 M1].
    destruct (IH _ N1) as [N2 M2]. split; [assumption|].
    intros k. rewrite M2, M1. cbn [In]. split.
    + intros [[H|H]|(t & Ht & Hk)]; eauto.
    + intros [H|(t & [<-|Ht] & Hk)]; eauto.
Qed.

(** The columns: every subject some record has a mark in, once each,
    in ascending order. *)
Lemma all_subjects_spec gb :
  StronglySorted (fun a b => String.ltb a b = true) (all_subjects gb)
  /\ forall k, In k (all_subjects gb)
     <-> exists s, In s (Dict.values (students gb))
                   /\ In k (Dict.keys (marks s)).
Proof.
  unfold all_subjects.
  destruct (collect_subjects_spec (Dict.values (students gb)) [])
    as [N M]; [constructor|].
  set (raw := fold_left _ _ _) in *.
  pose proof (SortFacts.sorted_Permutation String.ltb (fun k => k) raw) as P.
  split.
  - apply Sorted_StronglySorted.
    + intros x y z. apply string_ltb_trans.
    + apply Sorted_strict
        with (R := ordered String.ltb (fun k : string => k)).
      * intros a b. apply string_ltb_strict.
      * apply Permutation_NoDup with (l := raw); [now symmetry|assumption].
      * apply SortFacts.sorted_Sorted. apply string_ltb_asym.
  - intros k. split.
    + intros H. apply (Permutation_in _ P), M in H.
      destruct H as [[]|H]. exact H.
    + intros H. apply Permutation_sym in P.
      apply (Permutation_in _ P), M. now right.
Qed.

(** *** The rows *)

Lemma list_all_sorted gb :
  StronglySorted (fun a b => roll a <= roll b) (list_all gb).
Proof.
  unfold list_all. apply Sorted_StronglySorted.
  - intros x y z. apply Z.le_trans.
  - apply SortFacts.Sorted_weaken
      with (R := ordered Z.ltb roll) (P := fun _ => True).
    + intros a b _ _. unfold ordered. apply Z.ltb_ge.
    + apply Forall_forall. trivial.
    + apply SortFacts.sorted_Sorted. intros a b. rewrite Z.ltb_lt.
      intros H. apply Z.ltb_ge. lia.
Qed.

(** C8. The table that [export_to_csv] writes. Its header is [roll],
    [name], the subjects and [average], the subjects being all those
    some record has a mark in, each once, in ascending order of
    strings. A row follows for each record, in ascending order of
    roll: the roll, the name, under each subject the record's mark or
    the empty string, and the average written with two decimals or the
    empty string when the record has no marks. The text of an average
    is the one text [two_decimals] allows for it: sign, integer part,
    point and two digits, of the nearest number with two decimals. *)
Theorem export_to_csv_table (gb : Gradebook) :
  exists (subjects : list string) (records : list Student),
    export_to_csv gb
    = map CStr (["roll"; "name"] ++ subjects ++ ["average"])%list
      :: map (fun s =>
                ([CInt (roll s); CStr (name s)]
                 ++ map (fun k => match Dict.get String.eqb k (marks s) with
                                  | Some m => CFloat m
                                  | None => CStr ""
                                  end) subjects
                 ++ [CStr match get_average s with
                          | Some avg => PyFloat.format_2f avg
                          | None => ""
                          end])%list) records
    /\ StronglySorted (fun a b => String.ltb a b = true) subjects
    /\ (forall k, In k subjects
        <-> exists s, In s (Dict.values (students gb))
                      /\ In k (Dict.keys (marks s)))
    /\ Permutation records (Dict.values (students gb))
    /\ StronglySorted (fun a b => roll a <= roll b) records
    /\ (forall (avg : float) (t : string),
        two_decimals avg t <-> t = PyFloat.format_2f avg).
Proof.
  exists (all_subjects gb), (list_all gb).
  destruct (all_subjects_spec gb) as [S M].
  split; [reflexivity|]. split; [exact S|]. split; [exact M|].
  split; [apply list_all_Permutation|]. split; [apply list_all_sorted|].
  intros avg t. split.
  - intros H.
    exact (two_decimals_unique avg _ _ H (format_2f_two_decimals avg)).
  - intros ->. apply format_2f_two_decimals.
Qed.

Lemma export_to_csv_table_witness :
  map (fun row => last row (CStr "")) (export_to_csv sample_data)
  = [CStr "average"; CStr "84.33"; CStr "67.50"; CStr "88.33"]
  /\ two_decimals 67.5 "67.50"
  /\ ~ two_decimals 67.5 "67.5".
Proof.
  destruct (export_to_csv_table sample_data)
    as (subjects & records & E & _ & _ & _ & _ & T).
  split; [rewrite E, <- E; reflexivity|]. split.
  - now apply (T 67.5%float).
  - intros H. apply (T 67.5%float) in H. discriminate H.
Defined.

End CsvExport.

(* ================================================================= *)
(** ** The sample gradebook *)

Section Sample.

Example sample_class_average :
  option_map PyFloat.format_2f (class_average sample_data) = Some "80.06".
Proof. reflexivity. Qed.

Example sample_grade_distribution :
  grade_distribution sample_data
  = [("A", 2); ("B", 1); ("C", 0); ("D", 0); ("F", 0)]%nat.
Proof. reflexivity. Qed.

Example sample_top_2 :
  map (fun p => (name (fst p), PyFloat.format_2f (snd p)))
    (top_n_students sample_data 2)
  = [("Chitra Sen", "88.33"); ("Aman Koli", "84.33")].
Proof. reflexivity. Qed.

Example sample_export :
  export_to_csv sample_data
  = [ map CStr ["roll"; "name"; "Biology"; "Chemistry"; "English"; "Math";
                "Physics"; "average"];
      [CInt 101; CStr "Aman Koli"; CStr ""; CFloat 90; CStr ""; CFloat 85;
       CFloat 78; CStr "84.33"];
      [CInt 102; CStr "Bala Rao"; CStr ""; CStr ""; CStr ""; CFloat 65;
       CFloat 70; CStr "67.50"];
      [CInt 103; CStr "Chitra Sen"; CFloat 85; CStr ""; CFloat 88; CFloat 92;
       CStr ""; CStr "88.33"] ].
Proof. reflexivity. Qed.

Example sample_delete_then_get :
  get_student (fst (delete_student sample_data 102)) 102 = None
  /\ snd (delete_student sample_data 102) = true
  /\ snd (delete_student sample_data 999) = false.
Proof. repeat split. Qed.

End Sample.

(* ================================================================= *)
(** * Further properties of the code *)

(** ** Deleting, renaming and looking up *)

Section StoreOperations.

(** X5. [delete_student] reports whether the roll was there; afterwards
    the roll is gone and every other roll answers as before. Nothing
    changes when the roll was not there. *)
Theorem delete_student_removes (gb : Gradebook) (r : Z) :
  Dict.wf (students gb) ->
  snd (delete_student gb r)
  = match get_student gb r with Some _ => true | None => false end
  /\ get_student (fst (delete_student gb r)) r = None
  /\ (forall r', r' <> r ->
      get_student (fst (delete_student gb r)) r' = get_student gb r')
  /\ (get_student gb r = None -> fst (delete_student gb r) = gb).
Proof.
  intros W. unfold delete_student, get_student.
  pose proof (DictFacts.pop_snd Z.eqb r (students gb)) as S.
  pose proof (DictFacts.pop_get_same Z.eqb Z.eqb_eq r (students gb) W) as G.
  pose proof (fun r' => DictFacts.pop_get_other Z.eqb Z.eqb_eq r r'
                          (students gb)) as O.
  pose proof (DictFacts.pop_absent Z.eqb r (students gb)) as A.
  destruct (Dict.pop Z.eqb r (students gb)) as [d o].
  cbn [fst snd students] in *. subst o. repeat split; auto.
  intros H. destruct gb as [d0]. cbn [students] in *. now rewrite A.
Qed.

Lemma delete_student_removes_witness :
  Dict.wf (students sample_data)
  /\ get_student (fst (delete_student sample_data 102)) 102 = None
  /\ snd (delete_student sample_data 999) = false.
Proof.
  assert (W : Dict.wf (students sample_data))
    by (repeat constructor; cbn; intuition discriminate).
  split; [exact W|].
  destruct (delete_student_removes sample_data 102 W) as (_ & G & _).
  split; [exact G|].
  exact (proj1 (delete_student_removes sample_data 999 W)).
Defined.

(** X4. Deleting the roll of a record that was just added, under a roll
    that was free, gives the gradebook back as it was. *)
Theorem add_then_delete (gb : Gradebook) (s : Student) :
  get_student gb (roll s) = None ->
  delete_student (fst (add_student gb s)) (roll s) = (gb, true).
Proof.
  intros H. unfold add_student. rewrite mem_get_student, H.
  cbn [fst]. unfold delete_student. cbn [students].
  rewrite (DictFacts.pop_set_fresh Z.eqb Z.eqb_eq) by exact H.
  now destruct gb.
Qed.

Lemma add_then_delete_witness :
  get_student sample_data 104 = None
  /\ delete_student
       (fst (add_student sample_data (Student_init "Dev" 104 None))) 104
     = (sample_data, true).
Proof.
  split; [reflexivity|].
  apply (add_then_delete sample_data (Student_init "Dev" 104 None)).
  reflexivity.
Defined.

(** X6. [edit_student_name] answers [False] and changes nothing when the
    roll is not there. When it is, it answers [True] and changes the
    name of that record only: its roll and marks, the other records
    and the order of the records stay. *)
Theorem edit_student_name_only_name (gb : Gradebook) (r : Z) (n : string) :
  (get_student gb r = None -> edit_student_name gb r n = (gb, false))
  /\ (forall s, get_student gb r = Some s ->
      snd (edit_student_name gb r n) = true
      /\ get_student (fst (edit_student_name gb r n)) r
         = Some {| name := PyStr.strip n; roll := roll s; marks := marks s |}
      /\ Dict.keys (students (fst (edit_student_name gb r n)))
         = Dict.keys (students gb)
      /\ (forall r', r' <> r ->
          get_student (fst (edit_student_name gb r n)) r'
          = get_student gb r')).
Proof.
  unfold edit_student_name. split.
  - intros ->. reflexivity.
  - intros [n0 r0 m0] E. rewrite E. cbn [fst snd students roll marks].
    repeat split.
    + apply (DictFacts.get_set_same Z.eqb Z.eqb_eq).
    + now apply (DictFacts.set_keys_present Z.eqb)
        with (v0 := mkStudent n0 r0 m0).
    + intros r' Hr. now apply (DictFacts.get_set_other Z.eqb Z.eqb_eq).
Qed.

Lemma edit_student_name_only_name_witness :
  edit_student_name sample_data 999 "Eve" = (sample_data, false)
  /\ option_map name
       (get_student (fst (edit_student_name sample_data 102 " Bala R. ")) 102)
     = Some "Bala R.".
Proof.
  destruct (edit_student_name_only_name sample_data 999 "Eve") as [A _].
  destruct (edit_student_name_only_name sample_data 102 " Bala R. ")
    as [_ P].
  split; [exact (A eq_refl)|].
  destruct (P _ eq_refl) as (_ & G & _). rewrite G. reflexivity.
Defined.

(** X7. In every gradebook of a session the rolls are distinct and a
    record found under a roll carries that roll. *)
Theorem reachable_rolls (gb : Gradebook) :
  reachable gb ->
  NoDup (Dict.keys (students gb))
  /\ map roll (Dict.values (students gb)) = Dict.keys (students gb)
  /\ (forall r s, get_student gb r = Some s -> roll s = r).
Proof.
  intros H. apply reachable_inv in H. split; [apply H|]. split.
  - destruct H as [_ F]. unfold Dict.values, Dict.keys.
    rewrite map_map. apply map_ext_in. intros kv Hkv.
    rewrite Forall_forall in F. apply (F kv Hkv).
  - intros r s E. apply (inv_get gb r s H E).
Qed.

Lemma reachable_rolls_witness :
  reachable (fst (add_student Gradebook_init (Student_init "Amy" 101 None)))
  /\ roll (Student_init "Amy" 101 None) = 101.
Proof.
  assert (R : reachable
            (fst (add_student Gradebook_init (Student_init "Amy" 101 None))))
    by (apply reach_add, reach_init).
  split; [exact R|].
  exact (proj2 (proj2 (reachable_rolls _ R)) 101
           (Student_init "Amy" 101 None) eq_refl).
Defined.

End StoreOperations.

(* ================================================================= *)
(** ** Listing and the two codecs do not depend on insertion order *)

Section Canonical.

(** A strictly ascending list is determined by its members. *)
Lemma StronglySorted_unique {A : Type} (R : A -> A -> Prop) :
  (forall a, ~ R a a) -> (forall a b, R a b -> ~ R b a) ->
  forall l1 l2,
    StronglySorted R l1 -> StronglySorted R l2 ->
    (forall x, In x l1 <-> In x l2) -> l1 = l2.
Proof.
  intros Irr Asym. induction l1 as [|x l1 IH]; intros [|y l2] S1 S2 M.
  - reflexivity.
  - exfalso. apply (proj2 (M y)). now left.
  - exfalso. apply (proj1 (M x)). now left.
  - apply StronglySorted_inv in S1 as [S1 F1].
    apply StronglySorted_inv in S2 as [S2 F2].
    rewrite Forall_forall in F1, F2.
    assert (E : x = y).
    { destruct (proj1 (M x) (or_introl eq_refl)) as [E|Hx]; [now symmetry|].
      destruct (proj2 (M y) (or_introl eq_refl)) as [E|Hy]; [assumption|].
      exfalso. exact (Asym _ _ (F1 _ Hy) (F2 _ Hx)). }
    subst y. f_equal. apply IH; try assumption.
    intros z. split; intros Hz.
    + destruct (proj1 (M z) (or_intror Hz)) as [<-|H]; [|exact H].
      exfalso. exact (Irr _ (F1 _ Hz)).
    + destruct (proj2 (M z) (or_intror Hz)) as [<-|H]; [|exact H].
      exfalso. exact (Irr _ (F2 _ Hz)).
Qed.

Lemma inv_values_rolls gb :
  Gradebook_inv gb -> NoDup (map roll (Dict.values (students gb))).
Proof.
  intros H. rewrite <- keys_entries, <- (inv_entries gb H). apply H.
Qed.

Lemma inv_In_values gb s :
  Gradebook_inv gb ->
  (In s (Dict.values (students gb)) <-> get_student gb (roll s) = Some s).
Proof.
  intros H. pose proof H as [W F]. split.
  - intros Hs. unfold Dict.values in Hs.
    apply in_map_iff in Hs as ([k t] & E & Hkt). cbn [snd] in E. subst t.
    rewrite Forall_forall in F. destruct (F _ Hkt) as [Hr _].
    cbn [fst snd] in Hr. rewrite Hr.
    now apply (DictFacts.In_get Z.eqb Z.eqb_eq).
  - intros E. apply (DictFacts.get_In Z.eqb Z.eqb_eq) in E.
    change s with (snd (roll s, s)). now apply in_map.
Qed.

(** With distinct rolls, [list_all] is strictly ascending. *)
Lemma list_all_strict gb :
  Gradebook_inv gb ->
  StronglySorted (fun a b => roll a < roll b) (list_all gb).
Proof.
  intros H. apply Sorted_StronglySorted.
  - intros x y z. apply Z.lt_trans.
  - assert (N : NoDup (map roll (list_all gb))).
    { apply Permutation_NoDup
        with (l := map roll (Dict.values (students gb))).
      - apply Permutation_map. symmetry. apply list_all_Permutation.
      - now apply inv_values_rolls. }
    pose proof (StronglySorted_Sorted (list_all_sorted gb)) as S.
    induction S as [|x l Hs IH Hh]; [constructor|].
    cbn [map] in N. inversion N as [|? ? Nx Nl]; subst.
    constructor; [auto|].
    destruct Hh as [|y l' Hxy]; constructor.
    assert (roll x <> roll y) by (intros E; apply Nx; rewrite E; now left).
    lia.
Qed.

Lemma same_records_values g1 g2 :
  Gradebook_inv g1 -> Gradebook_inv g2 -> same_records g1 g2 ->
  forall s, In s (Dict.values (students g1))
            <-> In s (Dict.values (students g2)).
Proof.
  intros H1 H2 E s. rewrite (inv_In_values g1 s H1), (inv_In_values g2 s H2).
  now rewrite (E (roll s)).
Qed.

Lemma list_all_same g1 g2 :
  Gradebook_inv g1 -> Gradebook_inv g2 -> same_records g1 g2 ->
  list_all g1 = list_all g2.
Proof.
  intros H1 H2 E.
  apply (StronglySorted_unique (fun a b : Student => roll a < roll b)).
  - intros a. lia.
  - intros a b. lia.
  - now apply list_all_strict.
  - now apply list_all_strict.
  - intros s. split; intros Hs.
    + apply (Permutation_in _ (list_all_Permutation g1)) in Hs.
      apply (same_records_values g1 g2 H1 H2 E) in Hs.
      exact (Permutation_in _
               (Permutation_sym (list_all_Permutation g2)) Hs).
    + apply (Permutation_in _ (list_all_Permutation g2)) in Hs.
      apply (same_records_values g1 g2 H1 H2 E) in Hs.
      exact (Permutation_in _
               (Permutation_sym (list_all_Permutation g1)) Hs).
Qed.

Lemma string_ltb_irrefl a : String.ltb a a = false.
Proof.
  unfold String.ltb. replace (String.compare a a) with Eq; [reflexivity|].
  induction a as [|c a IH]; [reflexivity|]. cbn [String.compare].
  unfold Ascii.compare. now rewrite N.compare_refl.
Qed.

Lemma all_subjects_same g1 g2 :
  Gradebook_inv g1 -> Gradebook_inv g2 -> same_records g1 g2 ->
  all_subjects g1 = all_subjects g2.
Proof.
  intros H1 H2 E.
  destruct (all_subjects_spec g1) as [S1 M1].
  destruct (all_subjects_spec g2) as [S2 M2].
  apply (StronglySorted_unique (fun a b => String.ltb a b = true));
    try assumption.
  - intros a. rewrite string_ltb_irrefl. discriminate.
  - intros a b L. rewrite (string_ltb_asym a b L). discriminate.
  - intros k. rewrite M1, M2. split; intros (s & Hs & Hk); exists s;
      (split; [|exact Hk]);
      now apply (same_records_values g1 g2 H1 H2 E).
Qed.

(** X10. The records of a gradebook that was filled in any order are
    listed, and saved, in one order: strictly ascending by roll. Two
    gradebooks that hold the same records list and save the same. *)
Theorem list_all_and_save_canonical (g1 g2 : Gradebook) :
  Gradebook_inv g1 -> Gradebook_inv g2 -> same_records g1 g2 ->
  StronglySorted (fun a b => roll a < roll b) (list_all g1)
  /\ list_all g1 = list_all g2
  /\ save_to_json g1 = save_to_json g2.
Proof.
  intros H1 H2 E. split; [now apply list_all_strict|].
  unfold save_to_json. rewrite (list_all_same g1 g2 H1 H2 E). now split.
Qed.

Lemma sample_reversed_same :
  Gradebook_inv sample_data /\ Gradebook_inv sample_reversed
  /\ same_records sample_data sample_reversed.
Proof.
  repeat split; try (repeat constructor; cbn; intuition discriminate).
  intros r. unfold get_student. cbn.
  destruct (Z.eqb_spec r 101) as [->|]; [reflexivity|].
  destruct (Z.eqb_spec r 102) as [->|]; [reflexivity|].
  destruct (Z.eqb_spec r 103) as [->|]; [reflexivity|].
  destruct (Z.eqb r 103), (Z.eqb r 102), (Z.eqb r 101); reflexivity.
Qed.

Lemma list_all_and_save_canonical_witness :
  same_records sample_data sample_reversed
  /\ save_to_json sample_data = save_to_json sample_reversed.
Proof.
  destruct sample_reversed_same as (I1 & I2 & E).
  split; [exact E|].
  exact (proj2 (proj2
           (list_all_and_save_canonical sample_data sample_reversed I1 I2 E))).
Defined.

(** X20. Two gradebooks that hold the same records export the same
    table. *)
Theorem export_to_csv_canonical (g1 g2 : Gradebook) :
  Gradebook_inv g1 -> Gradebook_inv g2 -> same_records g1 g2 ->
  export_to_csv g1 = export_to_csv g2.
Proof.
  intros H1 H2 E. unfold export_to_csv.
  now rewrite (all_subjects_same g1 g2 H1 H2 E), (list_all_same g1 g2 H1 H2 E).
Qed.

Lemma export_to_csv_canonical_witness :
  same_records sample_data sample_reversed
  /\ export_to_csv sample_data = export_to_csv sample_reversed.
Proof.
  destruct sample_reversed_same as (I1 & I2 & E).
  split; [exact E|].
  exact (export_to_csv_canonical sample_data sample_reversed I1 I2 E).
Defined.

(** X19. The exported table is rectangular: the header and every row have
    three cells besides one per subject, and there is one row per
    record under the header. *)
Theorem export_to_csv_rectangular (gb : Gradebook) :
  List.length (export_to_csv gb) = S (Dict.len (students gb))
  /\ Forall (fun row => List.length row
                        = (3 + List.length (all_subjects gb))%nat)
       (export_to_csv gb).
Proof.
  unfold export_to_csv. split.
  - cbn [List.length]. rewrite length_map.
    rewrite (Permutation_length (list_all_Permutation gb)).
    unfold Dict.values, Dict.len. now rewrite length_map.
  - constructor.
    + rewrite length_map, !length_app. cbn [List.length]. lia.
    + apply Forall_forall. intros row Hrow.
      apply in_map_iff in Hrow as (s & <- & _). unfold csv_row.
      rewrite !length_app, length_map. cbn [List.length]. lia.
Qed.

End Canonical.

(* ================================================================= *)
(** ** Loading a document *)

Section Loading.

Lemma complete_from_dict d :
  complete d -> exists s, from_dict d = Ok s.
Proof.
  unfold complete, from_dict. intros [Hn Hr].
  destruct (d_name d); [|contradiction].
  destruct (d_roll d); [eauto|contradiction].
Qed.

Lemma load_items_complete data : forall gb n,
  Forall complete data ->
  load_items data gb n
  = ({| students :=
          fold_left (fun d s => Dict.set Z.eqb (roll s) s d) (decoded data)
            (students gb) |},
     Ok (n + List.length data)%nat).
Proof.
  induction data as [|item data IH]; intros gb n F;
    cbn [load_items decoded flat_map fold_left].
  - destruct gb. cbn. now rewrite Nat.add_0_r.
  - inversion F as [|? ? C F']; subst.
    destruct (complete_from_dict item C) as [s E]. rewrite E.
    rewrite IH by assumption. cbn [students app List.length].
    fold (decoded data). now rewrite Nat.add_succ_r.
Qed.

Lemma find_app_last {A : Type} (f : A -> bool) l x :
  find f (l ++ [x])%list
  = match find f l with
    | Some y => Some y
    | None => if f x then Some x else None
    end.
Proof.
  induction l as [|y l IH]; cbn [app find]; [reflexivity|].
  destruct (f y); [reflexivity|exact IH].
Qed.

(** After a run of stores, a roll answers with the record stored
    under it last. *)
Lemma get_after_stores l : forall (d : Dict.t Z Student) r,
  Dict.get Z.eqb r
    (fold_left (fun d s => Dict.set Z.eqb (roll s) s d) l d)
  = match find (fun s => Z.eqb (roll s) r) (rev l) with
    | Some s => Some s
    | None => Dict.get Z.eqb r d
    end.
Proof.
  induction l as [|x l IH]; intros d r; cbn [fold_left rev find];
    [reflexivity|].
  rewrite IH, find_app_last.
  destruct (find (fun s => Z.eqb (roll s) r) (rev l)); [reflexivity|].
  destruct (Z.eqb_spec (roll x) r) as [<-|N].
  - apply (DictFacts.get_set_same Z.eqb Z.eqb_eq).
  - apply (DictFacts.get_set_other Z.eqb Z.eqb_eq). congruence.
Qed.

(** X16. A document whose items all have a name and a roll loads without
    an exception and reports the number of its items. Afterwards a
    roll answers with the record of the last item of the document
    that carries it, and as before when no item carries it. *)
Theorem load_from_json_last_wins (gb : Gradebook) (data : list StudentDict) :
  Forall complete data ->
  snd (load_from_json gb data) = Ok (List.length data)
  /\ forall r,
     get_student (fst (load_from_json gb data)) r
     = match find (fun s => Z.eqb (roll s) r) (rev (decoded data)) with
       | Some s => Some s
       | None => get_student gb r
       end.
Proof.
  intros F. unfold load_from_json. rewrite load_items_complete by assumption.
  cbn [fst snd]. split; [reflexivity|].
  intros r. unfold get_student. cbn [students]. apply get_after_stores.
Qed.

Lemma load_from_json_last_wins_witness :
  Forall complete
    [ {| d_name := Some "Bob"; d_roll := Some 102; d_marks := None |};
      {| d_name := Some " Bo "; d_roll := Some 102;
         d_marks := Some [("Art", 55%float)] |} ]
  /\ get_student
       (fst (load_from_json sample_data
          [ {| d_name := Some "Bob"; d_roll := Some 102; d_marks := None |};
            {| d_name := Some " Bo "; d_roll := Some 102;
               d_marks := Some [("Art", 55%float)] |} ])) 102
     = Some (mkStudent "Bo" 102 [("Art", 55%float)]).
Proof.
  assert (F : Forall complete
    [ {| d_name := Some "Bob"; d_roll := Some 102; d_marks := None |};
      {| d_name := Some " Bo "; d_roll := Some 102;
         d_marks := Some [("Art", 55%float)] |} ])
    by (repeat constructor; discriminate).
  split; [exact F|].
  exact (proj2 (load_from_json_last_wins sample_data _ F) 102).
Defined.

Lemma load_items_app pre : forall rest gb n,
  Forall complete pre ->
  load_items (pre ++ rest) gb n
  = load_items rest (fst (load_items pre gb n)) (n + List.length pre)%nat.
Proof.
  induction pre as [|item pre IH]; intros rest gb n F;
    cbn [app load_items List.length fst].
  - now rewrite Nat.add_0_r.
  - inversion F as [|? ? C F']; subst.
    destruct (complete_from_dict item C) as [s E]. rewrite E.
    rewrite IH by assumption. now rewrite Nat.add_succ_r.
Qed.

(** X17. An item without a name, or with a name and without a roll, stops
    the load with [KeyError]: the items before it are stored, the item
    itself and the ones after it are not looked at. *)
Theorem load_from_json_key_error (gb : Gradebook)
  (pre post : list StudentDict) (bad : StudentDict) :
  Forall complete pre ->
  d_name bad = None \/ d_roll bad = None ->
  load_from_json gb (pre ++ bad :: post)
  = (fst (load_from_json gb pre),
     Raise (KeyError match d_name bad with
                     | None => "name"
                     | Some _ => "roll"
                     end)).
Proof.
  intros F B. unfold load_from_json. rewrite load_items_app by assumption.
  cbn [load_items]. unfold from_dict.
  destruct (d_name bad) as [n|]; [|reflexivity].
  destruct B as [B|B]; [discriminate|]. now rewrite B.
Qed.

Lemma load_from_json_key_error_witness :
  get_student
    (fst (load_from_json Gradebook_init
       [ {| d_name := Some "Amy"; d_roll := Some 1; d_marks := None |};
         {| d_name := Some "Bob"; d_roll := None; d_marks := None |};
         {| d_name := Some "Cid"; d_roll := Some 3; d_marks := None |} ])) 1
  = Some (mkStudent "Amy" 1 [])
  /\ snd (load_from_json Gradebook_init
       [ {| d_name := Some "Amy"; d_roll := Some 1; d_marks := None |};
         {| d_name := Some "Bob"; d_roll := None; d_marks := None |};
         {| d_name := Some "Cid"; d_roll := Some 3; d_marks := None |} ])
     = Raise (KeyError "roll").
Proof.
  pose proof (load_from_json_key_error Gradebook_init
    [ {| d_name := Some "Amy"; d_roll := Some 1; d_marks := None |} ]
    [ {| d_name := Some "Cid"; d_roll := Some 3; d_marks := None |} ]
    {| d_name := Some "Bob"; d_roll := None; d_marks := None |}
    ltac:(repeat constructor; discriminate) (or_intror eq_refl)) as H.
  cbn [app] in H. rewrite H. split; reflexivity.
Defined.

End Loading.

(* ================================================================= *)
(** ** Searching *)

Section Searching.

Import PyStr.

Lemma prefix_iff q : forall s,
  String.prefix q s = true <-> exists b, s = q ++ b.
Proof.
  induction q as [|c q IH]; intros s.
  - cbn [append]. split; [eauto|]. intros _. now destruct s.
  - destruct s as [|c' s]; cbn [String.prefix append];
      [split; [discriminate|now intros [b H]]|].
    destruct (ascii_dec c c') as [<-|N].
    + rewrite IH. split; intros [b H]; exists b; congruence.
    + split; [discriminate|]. intros [b H]. congruence.
Qed.

(** [q in s] says that [q] occurs in [s]. *)
Lemma contains_iff q : forall s,
  contains q s = true <-> exists a b, s = a ++ q ++ b.
Proof.
  induction s as [|c s IH]; cbn [contains]; rewrite orb_true_iff, prefix_iff.
  - split.
    + intros [[b H]|H]; [exists "", b; exact H|discriminate].
    + intros ([|c a] & b & H); [left; eauto|discriminate].
  - rewrite IH. split.
    + intros [[b H]|(a & b & H)]; [exists "", b; exact H|].
      exists (String c a), b. cbn [append]. now rewrite H.
    + intros ([|c' a] & b & H); [left; eauto|].
      right. exists a, b. cbn [append] in H. congruence.
Qed.

Lemma lower_app a b : lower (a ++ b) = lower a ++ lower b.
Proof.
  induction a as [|c a IH]; cbn [append lower]; [reflexivity|].
  now rewrite IH.
Qed.

Lemma lstrip_suffix s : exists a, s = a ++ lstrip s.
Proof.
  induction s as [|c s [a IH]]; cbn [lstrip]; [now exists ""|].
  destruct (isspace c); [|now exists ""].
  exists (String c a). cbn [append]. now rewrite <- IH.
Qed.

Lemma rstrip_prefix s : exists b, s = rstrip s ++ b.
Proof.
  induction s as [|c s [b IH]]; cbn [rstrip]; [now exists ""|].
  destruct (rstrip s) as [|c' r].
  - destruct (isspace c); [now exists (String c s)|].
    exists s. reflexivity.
  - exists b. cbn [append] in *. now rewrite <- IH.
Qed.

(** A stripped string occurs in the string it was stripped from. *)
Lemma strip_occurs s : exists a b, s = a ++ strip s ++ b.
Proof.
  unfold strip. destruct (lstrip_suffix s) as [a Ha].
  destruct (rstrip_prefix (lstrip s)) as [b Hb].
  exists a, b. now rewrite <- Hb.
Qed.

(** X8. [search_by_name] finds exactly the held records whose name, in
    lower case, has the stripped query, in lower case, somewhere
    inside. *)
Theorem search_by_name_matches (gb : Gradebook) (query : string)
  (s : Student) :
  In s (search_by_name gb query)
  <-> In s (Dict.values (students gb))
      /\ exists a b, lower (name s) = a ++ lower (strip query) ++ b.
Proof.
  unfold search_by_name. rewrite filter_In, contains_iff. reflexivity.
Qed.

(** X9. A held record is found by its own name, written in any letter
    case and with blanks around it. *)
Theorem search_by_name_finds_own_name (gb : Gradebook) (s : Student)
  (query : string) :
  In s (Dict.values (students gb)) ->
  lower (strip query) = lower (strip (name s)) ->
  In s (search_by_name gb query).
Proof.
  intros Hs E. unfold search_by_name. apply filter_In. split; [exact Hs|].
  apply contains_iff. rewrite E.
  destruct (strip_occurs (name s)) as (a & b & H).
  exists (lower a), (lower b). rewrite <- !lower_app. now rewrite <- H.
Qed.

Lemma search_by_name_finds_own_name_witness :
  In (Student_init "Bala Rao" 102
        (Some [("Math", 65); ("Physics", 70)])%float)
    (search_by_name sample_data "  BALA rao ").
Proof.
  apply search_by_name_finds_own_name.
  - cbn. tauto.
  - reflexivity.
Defined.

End Searching.

(* ================================================================= *)
(** ** More on the statistics *)

Section MoreStatistics.

Local Open Scope float_scope.

Lemma values_app {K V : Type} (d1 d2 : Dict.t K V) :
  Dict.values (d1 ++ d2)%list = (Dict.values d1 ++ Dict.values d2)%list.
Proof. apply map_app. Qed.

Lemma count_grade_app g l1 l2 :
  count_grade g (l1 ++ l2)%list
  = (count_grade g l1 + count_grade g l2)%nat.
Proof. unfold count_grade. now rewrite filter_app, length_app. Qed.

(** X11. A record without marks that is added under a free roll does not
    change the class average, while it is counted under grade F and
    ranked with the score [0.0]: the three statistics treat the
    absence of marks differently. *)
Theorem unmarked_student_in_statistics (gb : Gradebook) (s : Student) :
  marks s = [] -> get_student gb (roll s) = None ->
  class_average (fst (add_student gb s)) = class_average gb
  /\ Dict.get String.eqb "F" (grade_distribution (fst (add_student gb s)))
     = option_map S (Dict.get String.eqb "F" (grade_distribution gb))
  /\ In (s, 0)
       (top_n_students (fst (add_student gb s))
          (Z.of_nat (Dict.len (students (fst (add_student gb s)))))).
Proof.
  intros M H. rewrite (add_student_absent gb s H). cbn [fst students].
  assert (A : get_average s = None) by (unfold get_average; now rewrite M).
  split; [|split].
  - unfold class_average. cbn [students]. rewrite values_app, flat_map_app.
    cbn [Dict.values map snd flat_map]. rewrite A. cbn [app].
    now rewrite app_nil_r.
  - destruct (grade_distribution_counts gb) as [_ G].
    destruct (grade_distribution_counts
                {| students := (students gb ++ [(roll s, s)])%list |})
      as [_ G'].
    rewrite G, G' by (cbn; auto 10). cbn [students option_map].
    rewrite values_app, count_grade_app. f_equal.
    unfold count_grade at 2. cbn [Dict.values map snd filter].
    unfold grade_of. rewrite A. cbn. lia.
  - unfold top_n_students. cbn [students].
    rewrite SortFacts.slice_to_firstn by lia. rewrite Nat2Z.id.
    rewrite firstn_all2.
    + apply (Permutation_in _
        (Permutation_sym (SortFacts.sorted_reverse_Permutation _ _ _))).
      apply in_map_iff. exists s. split.
      * unfold score. now rewrite A.
      * rewrite values_app, in_app_iff. right. now left.
    + rewrite (Permutation_length (SortFacts.sorted_reverse_Permutation _ _ _)).
      unfold Dict.values, Dict.len. now rewrite !length_map.
Qed.

Lemma unmarked_student_in_statistics_witness :
  class_average (fst (add_student sample_data (Student_init "Dev" 104 None)))
  = class_average sample_data
  /\ Dict.get String.eqb "F"
       (grade_distribution
          (fst (add_student sample_data (Student_init "Dev" 104 None))))
     = Some 1%nat.
Proof.
  destruct (unmarked_student_in_statistics sample_data
              (Student_init "Dev" 104 None) eq_refl eq_refl) as (C & F & _).
  split; [exact C|]. rewrite F. reflexivity.
Defined.

(** X12. [top_n_students] returns [n] pairs, or all of them when the
    gradebook holds fewer than [n] records; none for [n = 0]. *)
Theorem top_n_students_length (gb : Gradebook) (n : Z) :
  0 <= n ->
  List.length (top_n_students gb n)
  = Nat.min (Z.to_nat n) (Dict.len (students gb)).
Proof.
  intros H. unfold top_n_students.
  rewrite SortFacts.slice_to_firstn by assumption. rewrite length_firstn.
  rewrite (Permutation_length (SortFacts.sorted_reverse_Permutation _ _ _)).
  unfold Dict.values, Dict.len. now rewrite !length_map.
Qed.

Lemma top_n_students_length_witness :
  0 <= 5 /\ List.length (top_n_students sample_data 5) = 3%nat.
Proof.
  split; [lia|]. rewrite (top_n_students_length sample_data 5) by lia.
  reflexivity.
Defined.

Lemma StronglySorted_app_inv {A : Type} (R : A -> A -> Prop) l1 : forall l2,
  StronglySorted R (l1 ++ l2) ->
  forall a b, In a l1 -> In b l2 -> R a b.
Proof.
  induction l1 as [|x l1 IH]; intros l2 S a b Ha Hb; [destruct Ha|].
  cbn [app] in S. apply StronglySorted_inv in S as [S F].
  destruct Ha as [<-|Ha]; [|now apply (IH l2 S)].
  rewrite Forall_forall in F. apply F, in_or_app. now right.
Qed.

(** X13. The pairs returned are the best: with the pairs left out they
    make up all the pairs, and no pair left out has a score above one
    that is returned. *)
Theorem top_n_students_best (gb : Gradebook) (n : Z) :
  valid_gradebook gb -> 0 <= n ->
  exists rest : list (Student * float),
    Permutation (top_n_students gb n ++ rest)
      (map (fun s => (s, score s)) (Dict.values (students gb)))
    /\ forall p q, In p (top_n_students gb n) -> In q rest -> outranks p q.
Proof.
  intros V Hn. apply valid_averages_defined in V.
  unfold averages_defined in V. rewrite Forall_forall in V.
  unfold top_n_students. rewrite SortFacts.slice_to_firstn by assumption.
  set (ranked := PySort.sorted_reverse PrimFloat.ltb snd _).
  exists (skipn (Z.to_nat n) ranked). split.
  - rewrite firstn_skipn. apply SortFacts.sorted_reverse_Permutation.
  - apply StronglySorted_app_inv. rewrite firstn_skipn.
    apply sorted_reverse_descending. apply Forall_forall.
    intros p Hp. apply in_map_iff in Hp as (s & <- & Hs). cbn [snd].
    apply score_not_nan, V, Hs.
Qed.

Lemma top_n_students_best_witness :
  valid_gradebook sample_data /\ 0 <= 1
  /\ map (fun p => name (fst p)) (top_n_students sample_data 1)
     = ["Chitra Sen"].
Proof.
  assert (V : valid_gradebook sample_data)
    by (repeat constructor; discriminate).
  split; [exact V|]. split; [lia|].
  destruct (top_n_students_best sample_data 1 V ltac:(lia)) as (rest & _ & _).
  reflexivity.
Defined.

(** X14. With marks in range, records with the same score are ranked in
    the order in which the gradebook holds them. (The marks are in
    range so that no score is NaN: see [PySort.sorted_reverse].) *)
Theorem top_n_students_ties (gb : Gradebook) (v : float) :
  valid_gradebook gb ->
  filter (fun p => snd p =? v)
    (top_n_students gb (Z.of_nat (Dict.len (students gb))))
  = filter (fun p => snd p =? v)
      (map (fun s => (s, score s)) (Dict.values (students gb))).
Proof.
  intros _. unfold top_n_students. rewrite SortFacts.slice_to_firstn by lia.
  rewrite Nat2Z.id, firstn_all2.
  - apply SortFacts.sorted_reverse_filter.
    intros a b Ha Hb. exact (FloatFacts.eqb_not_ltb _ _ v Ha Hb).
  - rewrite (Permutation_length (SortFacts.sorted_reverse_Permutation _ _ _)).
    unfold Dict.values, Dict.len. now rewrite !length_map.
Qed.

Lemma top_n_students_ties_witness :
  valid_gradebook tied_data
  /\ map (fun p => roll (fst p)) (top_n_students tied_data 3) = [3; 2; 1]%Z
  /\ map (fun p => roll (fst p))
       (filter (fun p => snd p =? 50) (top_n_students tied_data 3))
     = [2; 1]%Z.
Proof.
  assert (V : valid_gradebook tied_data)
    by (repeat constructor; discriminate).
  split; [exact V|]. split; [reflexivity|].
  exact (f_equal (map (fun p => roll (fst p)))
           (top_n_students_ties tied_data 50 V)).
Defined.

End MoreStatistics.

(* ================================================================= *)
(** ** More on a record's marks *)

Section MoreMarks.

Local Open Scope float_scope.

Lemma set_length {V : Type} k (v : V) (d : Dict.t string V) :
  Dict.len (Dict.set String.eqb k v d)
  = if Dict.mem String.eqb k d then Dict.len d else S (Dict.len d).
Proof.
  unfold Dict.len. destruct (Dict.mem String.eqb k d) eqn:M.
  - apply (DictFacts.set_keys_mem String.eqb) with (v := v) in M.
    apply (f_equal (@List.length string)) in M. unfold Dict.keys in M.
    now rewrite !length_map in M.
  - rewrite (DictFacts.set_fresh String.eqb) by assumption.
    rewrite length_app. cbn [List.length]. lia.
Qed.

(** X1. Setting a mark for a subject that has one replaces it: the record
    is as if only the second mark had been set, and the number of
    marks grows only when the subject is new. *)
Theorem set_mark_overwrites (s : Student) (subject : string)
  (m1 m2 : float) :
  valid_mark m1 -> valid_mark m2 ->
  fst (set_mark (fst (set_mark s subject m1)) subject m2)
  = fst (set_mark s subject m2)
  /\ Dict.len (marks (fst (set_mark s subject m1)))
     = if Dict.mem String.eqb (PyStr.strip subject) (marks s)
       then Dict.len (marks s) else S (Dict.len (marks s)).
Proof.
  unfold valid_mark, set_mark. intros -> ->. cbn [fst marks name roll].
  split; [|apply set_length].
  now rewrite (DictFacts.set_set String.eqb String.eqb_eq).
Qed.

Lemma set_mark_overwrites_witness :
  valid_mark 40 /\ valid_mark 90
  /\ marks (fst (set_mark (fst (set_mark (Student_init "Amy" 1 None)
                                  "Math" 40)) " Math " 90))
     = [("Math", 90)].
Proof.
  split; [reflexivity|]. split; [reflexivity|].
  pose proof (set_mark_overwrites (Student_init "Amy" 1 None) "Math" 40 90
                eq_refl eq_refl) as [E _].
  reflexivity.
Defined.

Lemma set_mark_valid_witness :
  valid_student (Student_init "Amy" 1 (Some [("Math", 85)]))
  /\ valid_student
       (fst (set_mark (Student_init "Amy" 1 (Some [("Math", 85)]))
               "Art" 250)).
Proof.
  assert (V : valid_student (Student_init "Amy" 1 (Some [("Math", 85)])))
    by (repeat constructor; discriminate).
  split; [exact V|].
  apply (set_mark_valid _ "Art" 250 V). cbn. unfold sys_maxsize. lia.
Defined.

(** X3. The average of marks that are all in range is a number, and it is
    not negative. *)
Theorem get_average_not_negative (s : Student) (a : float) :
  valid_student s -> get_average s = Some a ->
  (0 <=? a) = true /\ PrimFloat.is_nan a = false.
Proof.
  intros V E. pose proof (valid_average_nonneg s a V E) as N. split.
  - now apply FloatFacts.nonneg_leb_zero.
  - unfold PrimFloat.is_nan.
    now rewrite (FloatFacts.float_eqb_refl a (FloatFacts.nonneg_not_nan a N)).
Qed.

Lemma get_average_not_negative_witness :
  valid_student (Student_init "Amy" 1 (Some [("Math", 0); ("Art", 0)]))
  /\ option_map (PrimFloat.leb 0)
       (get_average (Student_init "Amy" 1 (Some [("Math", 0); ("Art", 0)])))
     = Some true.
Proof.
  assert (V : valid_student
                (Student_init "Amy" 1 (Some [("Math", 0); ("Art", 0)])))
    by (repeat constructor; discriminate).
  split; [exact V|].
  destruct (get_average (Student_init "Amy" 1 (Some [("Math", 0); ("Art", 0)])))
    as [a|] eqn:E; [|discriminate E].
  cbn [option_map]. f_equal.
  exact (proj1 (get_average_not_negative _ a V E)).
Defined.

(** X24. Removing a subject's mark, as the menu does: the subject is gone,
    the other marks, the name and the roll stay, and nothing changes
    when the subject had no mark. *)
Theorem remove_mark_removes (s : Student) (subject : string) :
  Dict.wf (marks s) ->
  Dict.get String.eqb subject (marks (remove_mark s subject)) = None
  /\ (forall k, k <> subject ->
      Dict.get String.eqb k (marks (remove_mark s subject))
      = Dict.get String.eqb k (marks s))
  /\ name (remove_mark s subject) = name s
  /\ roll (remove_mark s subject) = roll s
  /\ (Dict.get String.eqb subject (marks s) = None ->
      remove_mark s subject = s).
Proof.
  intros W. unfold remove_mark. cbn [marks name roll]. repeat split.
  - now apply (DictFacts.pop_get_same String.eqb String.eqb_eq).
  - intros k Hk. now apply (DictFacts.pop_get_other String.eqb String.eqb_eq).
  - intros H. rewrite (DictFacts.pop_absent String.eqb) by assumption.
    now destruct s.
Qed.

Lemma remove_mark_removes_witness :
  Dict.wf [("Math", 85); ("Art", 60)]
  /\ marks (remove_mark (mkStudent "Amy" 1 [("Math", 85); ("Art", 60)]) "Math")
     = [("Art", 60)].
Proof.
  assert (W : Dict.wf (marks (mkStudent "Amy" 1 [("Math", 85); ("Art", 60)])))
    by (repeat constructor; cbn; intuition discriminate).
  split; [exact W|].
  destruct (remove_mark_removes
              (mkStudent "Amy" 1 [("Math", 85); ("Art", 60)]) "Math" W)
    as (G & _).
  reflexivity.
Defined.

(** X25. Removing the mark of a subject that was just set, and had no mark
    before, gives the record back as it was. *)
Theorem set_then_remove_mark (s : Student) (subject : string) (m : float) :
  valid_mark m ->
  Dict.get String.eqb (PyStr.strip subject) (marks s) = None ->
  remove_mark (fst (set_mark s subject m)) (PyStr.strip subject) = s.
Proof.
  unfold valid_mark, set_mark, remove_mark. intros -> H.
  cbn [fst marks name roll].
  rewrite (DictFacts.pop_set_fresh String.eqb String.eqb_eq) by exact H.
  now destruct s.
Qed.

Lemma set_then_remove_mark_witness :
  valid_mark 70
  /\ remove_mark (fst (set_mark (Student_init "Amy" 1 None) " Art " 70)) "Art"
     = Student_init "Amy" 1 None.
Proof.
  split; [reflexivity|].
  exact (set_then_remove_mark (Student_init "Amy" 1 None) " Art " 70
           eq_refl eq_refl).
Defined.

End MoreMarks.

(* ================================================================= *)
(** ** The console helpers *)

Section ConsoleHelpers.

Variable py_int : string -> parsed Z.
Variable py_float : string -> parsed float.

Lemma input_int_skips bad : forall prompt stdin out,
  Forall (refused py_int) bad ->
  input_int py_int prompt (bad ++ stdin) out
  = input_int py_int prompt stdin (out ++ int_retries prompt bad).
Proof.
  induction bad as [|l bad IH]; intros prompt stdin out F;
    cbn [app input_int int_retries flat_map].
  - now rewrite app_nil_r.
  - inversion F as [|? ? [msg E] F']; subst. rewrite E.
    rewrite IH by assumption. f_equal. unfold int_retries.
    now rewrite <- app_assoc.
Qed.

Lemma input_float_skips bad : forall prompt stdin out,
  Forall (refused py_float) bad ->
  input_float py_float prompt (bad ++ stdin) out
  = input_float py_float prompt stdin (out ++ float_retries prompt bad).
Proof.
  induction bad as [|l bad IH]; intros prompt stdin out F;
    cbn [app input_float float_retries flat_map].
  - now rewrite app_nil_r.
  - inversion F as [|? ? [msg E] F']; subst. rewrite E.
    rewrite IH by assumption. f_equal. unfold float_retries.
    now rewrite <- app_assoc.
Qed.

(** X21. [input_int] and [input_float] return the value of the first line
    that is a number and leave the lines after it unread; every line
    before it is answered with the request to enter a number, after
    which the prompt is written again. When no line is a number, all
    of them are read and the [EOFError] of [input] comes out. *)
Theorem input_number_retries (prompt : string) (bad rest : list string)
  (out : list string) :
  (Forall (refused py_int) bad ->
   (forall good v, py_int good = Parsed v ->
      input_int py_int prompt (bad ++ good :: rest) out
      = (Console.mk rest (out ++ int_retries prompt bad ++ [prompt]),
         Console.Return v))
   /\ input_int py_int prompt bad out
      = (Console.mk [] (out ++ int_retries prompt bad ++ [prompt]),
         Console.EOFError))
  /\ (Forall (refused py_float) bad ->
      (forall good v, py_float good = Parsed v ->
         input_float py_float prompt (bad ++ good :: rest) out
         = (Console.mk rest (out ++ float_retries prompt bad ++ [prompt]),
            Console.Return v))
      /\ input_float py_float prompt bad out
         = (Console.mk [] (out ++ float_retries prompt bad ++ [prompt]),
            Console.EOFError)).
Proof.
  split; intros F; split.
  - intros good v E. rewrite input_int_skips by assumption.
    cbn [input_int]. rewrite E. now rewrite <- app_assoc.
  - rewrite <- (app_nil_r bad) at 1. rewrite input_int_skips by assumption.
    cbn [input_int]. now rewrite <- app_assoc.
  - intros good v E. rewrite input_float_skips by assumption.
    cbn [input_float]. rewrite E. now rewrite <- app_assoc.
  - rewrite <- (app_nil_r bad) at 1. rewrite input_float_skips by assumption.
    cbn [input_float]. now rewrite <- app_assoc.
Qed.

Lemma well_kept_refl s : well_kept s s.
Proof. repeat split; auto. Qed.

Lemma well_kept_trans s0 s1 s2 :
  well_kept s0 s1 -> well_kept s1 s2 -> well_kept s0 s2.
Proof.
  intros (N1 & R1 & V1 & W1) (N2 & R2 & V2 & W2).
  repeat split; try congruence; auto.
Qed.

Lemma set_mark_well_kept s subject m : well_kept s (fst (set_mark s subject m)).
Proof.
  unfold set_mark. destruct (PyFloat.between 0 m 100) eqn:E; cbn [fst];
    [|apply well_kept_refl].
  repeat split; cbn [marks].
  - intros F. now apply (DictFacts.set_Forall String.eqb String.eqb_eq).
  - apply (DictFacts.set_wf String.eqb String.eqb_eq).
Qed.

Lemma set_mark_outcome s subject m :
  snd (set_mark s subject m) = Ok tt
  \/ snd (set_mark s subject m)
     = Raise (AssertionError "Mark must be between 0 and 100.").
Proof.
  unfold set_mark. destruct (PyFloat.between 0 m 100); auto.
Qed.

Lemma read_marks_well_kept n : forall stdin s out,
  (List.length stdin <= n)%nat ->
  match snd (read_marks py_float s stdin out) with
  | Console.Return s' => well_kept s s'
  | Console.EOFError => True
  | Console.Uncaught _ => False
  end.
Proof.
  induction n as [|n IH]; intros stdin s out L.
  - destruct stdin; [exact I|cbn in L; lia].
  - destruct stdin as [|l1 [|l2 rest]]; cbn [read_marks]; [exact I| |].
    + destruct (String.eqb _ "done"); cbn [snd];
        [apply well_kept_refl|exact I].
    + destruct (String.eqb _ "done"); cbn [snd]; [apply well_kept_refl|].
      assert (L' : (List.length rest <= n)%nat) by (cbn in L; lia).
      destruct (py_float (PyStr.strip l2)) as [m|msg]; [|now apply IH].
      pose proof (set_mark_well_kept s (PyStr.strip l1) m) as K.
      pose proof (set_mark_outcome s (PyStr.strip l1) m) as O.
      destruct (set_mark s (PyStr.strip l1) m) as [s' o]. cbn [fst snd] in *.
      destruct O as [-> | ->];
        match goal with
        | |- context [read_marks _ _ _ ?o] =>
            specialize (IH rest s' o L');
            destruct (snd (read_marks py_float s' rest o));
            [now apply (well_kept_trans s s')|exact I|contradiction]
        end.
Qed.

(** X22. [create_student_interactive] never ends with an exception other
    than the [EOFError] of [input]. The record it returns has its
    name stripped, its marks in range and no subject twice: a mark
    that is not a number or out of range is never stored. *)
Theorem create_student_interactive_valid (stdin out : list string) :
  match snd (create_student_interactive py_int py_float stdin out) with
  | Console.Return s =>
      stripped (name s)
      /\ Forall (fun kv => valid_mark (snd kv)) (marks s)
      /\ Dict.wf (marks s)
  | Console.EOFError => True
  | Console.Uncaught _ => False
  end.
Proof.
  unfold create_student_interactive. destruct stdin as [|l rest]; [exact I|].
  assert (U : forall p i o e,
            snd (input_int py_int p i o) <> Console.Uncaught e).
  { intros p i. induction i as [|x i IH]; intros o e; cbn [input_int snd];
      [discriminate|].
    destruct (py_int x); [discriminate|apply IH]. }
  specialize (U "Roll (integer): " rest (out ++ ["Name: "])%list).
  destruct (input_int py_int "Roll (integer): " rest (out ++ ["Name: "])%list)
    as [c [r| |e]]; cbn [snd] in *; [|exact I|now apply (U e)].
  pose proof (read_marks_well_kept
                (List.length (Console.stdin c)) (Console.stdin c)
                (Student_init (PyStr.strip l) r None)
                (Console.stdout c
                 ++ [("Enter marks for subjects. Type 'done' when finished."
                      ++ Console.nl)%string])%list (Nat.le_refl _)) as K.
  destruct (snd (read_marks py_float _ _ _)) as [s| |e];
    [|exact I|exact K].
  destruct K as (N & _ & V & W). split; [|split].
  - unfold stripped. rewrite N. cbn [name Student_init].
    now rewrite !StrFacts.strip_idem.
  - apply V. constructor.
  - apply W. constructor.
Qed.

Lemma read_marks_done entries : forall s out done rest,
  Forall (fun e => PyStr.lower (PyStr.strip (fst e)) <> "done") entries ->
  PyStr.lower (PyStr.strip done) = "done" ->
  exists s' out',
    read_marks py_float s (entry_lines entries ++ done :: rest) out
    = (Console.mk rest out', Console.Return s').
Proof.
  induction entries as [|[l1 l2] entries IH]; intros s out done rest F D;
    cbn [entry_lines flat_map app read_marks fst snd].
  - rewrite D. cbn. eauto.
  - inversion F as [|? ? N F']; subst. cbn [fst] in N.
    apply String.eqb_neq in N. rewrite N.
    fold (entry_lines entries).
    destruct (py_float (PyStr.strip l2)) as [m|msg]; [|now apply IH].
    pose proof (set_mark_outcome s (PyStr.strip l1) m) as O.
    destruct (set_mark s (PyStr.strip l1) m) as [s' o]. cbn [snd] in O.
    destruct O as [-> | ->]; now apply IH.
Qed.

(** X23. A session that gives a name, then lines of which one is an
    integer, then any subjects and marks and at last "done" in any
    letter case makes [create_student_interactive] return a record
    with that name, stripped, and that roll; the lines after "done"
    are left unread. *)
Theorem create_student_interactive_returns
  (name_line roll_line done : string) (bad : list string)
  (entries : list (string * string)) (rest out : list string) (r : Z) :
  Forall (refused py_int) bad -> py_int roll_line = Parsed r ->
  Forall (fun e => PyStr.lower (PyStr.strip (fst e)) <> "done") entries ->
  PyStr.lower (PyStr.strip done) = "done" ->
  exists s out',
    create_student_interactive py_int py_float
      (name_line :: bad ++ roll_line :: entry_lines entries ++ done :: rest)
      out
    = (Console.mk rest out', Console.Return s)
    /\ name s = PyStr.strip name_line /\ roll s = r.
Proof.
  intros B R F D. unfold create_student_interactive.
  rewrite input_int_skips by assumption. cbn [input_int]. rewrite R.
  cbn [Console.stdin Console.stdout].
  match goal with
  | |- context [read_marks _ ?s0 _ ?o] =>
      destruct (read_marks_done entries s0 o done rest F D)
        as (s & out' & E);
      pose proof (read_marks_well_kept
                    (List.length (entry_lines entries ++ done :: rest))
                    (entry_lines entries ++ done :: rest) s0 o
                    (Nat.le_refl _)) as K
  end.
  rewrite E in K |- *. cbn [snd] in K.
  destruct K as (N & Rl & _). exists s, out'. split; [reflexivity|].
  rewrite N, Rl. cbn [name roll Student_init].
  now rewrite StrFacts.strip_idem.
Qed.

End ConsoleHelpers.

Section ConsoleExamples.

Lemma input_number_retries_witness :
  input_int demo_int "Roll: " ["x"; ""; "101"; "next"] []
  = (Console.mk ["next"]
       ["Roll: "; "Please enter a valid integer." ++ Console.nl;
        "Roll: "; "Please enter a valid integer." ++ Console.nl;
        "Roll: "],
     Console.Return 101).
Proof.
  assert (B : Forall (refused demo_int) ["x"; ""])
    by (repeat constructor; eexists; reflexivity).
  exact (proj1 (proj1 (input_number_retries demo_int demo_float
                         "Roll: " ["x"; ""] ["next"] []) B)
           "101" 101 eq_refl).
Defined.

Lemma create_student_interactive_returns_witness :
  exists s out',
    create_student_interactive demo_int demo_float
      [" Amy "; "one"; "101"; "Math"; "85"; "Art"; "250"; "Done"; "next"] []
    = (Console.mk ["next"] out', Console.Return s)
    /\ name s = "Amy" /\ roll s = 101.
Proof.
  apply (create_student_interactive_returns demo_int demo_float
           " Amy " "101" "Done" ["one"] [("Math", "85"); ("Art", "250")]
           ["next"] [] 101).
  - repeat constructor; eexists; reflexivity.
  - reflexivity.
  - repeat constructor; discriminate.
  - reflexivity.
Defined.

Example create_student_interactive_session :
  snd (create_student_interactive demo_int demo_float
         [" Amy "; "one"; "101"; "Math"; "85"; "Art"; "250"; "Done"] [])
  = Console.Return (mkStudent "Amy" 101 [("Math", 85%float)]).
Proof. reflexivity. Qed.

End ConsoleExamples.

Section MoreExamples.

Lemma load_save_in_place_witness :
  Gradebook_inv sample_data
  /\ load_from_json sample_data (save_to_json sample_data)
     = (sample_data, Ok 3%nat).
Proof.
  assert (I : Gradebook_inv sample_data).
  { split.
    - repeat constructor; cbn; intuition discriminate.
    - repeat constructor. }
  split; [exact I|]. exact (load_save_in_place sample_data I).
Defined.

Lemma top_n_students_negative_witness :
  -1 < 0
  /\ map (fun p => name (fst p)) (top_n_students sample_data (-1))
     = ["Chitra Sen"; "Aman Koli"]
  /\ top_n_students sample_data (-3) = [].
Proof.
  split; [lia|]. split.
  - rewrite (proj1 (top_n_students_negative sample_data (-1) ltac:(lia))).
    reflexivity.
  - apply (top_n_students_negative sample_data (-3) ltac:(lia)).
    cbn. lia.
Defined.

End MoreExamples.
